(** * Fraud Detection API: risk scoring, alert derivation and listing

    A shallow embedding of [src/main.py] and [src/schemas.py], with the
    properties of the specification stated and proved over it.

    Conventions of the embedding.
    - A Python [float] that is read from a request is a [float] below:
      a finite rational, an infinity or NaN.  The score is built from
      the literals 0.0, 50, 25, 15, 10 and 5 only; on such small
      integers float arithmetic is exact, so the score is a rational [Q].
    - A Python [str] is a [string]; [str.upper] and [str.lower] are the
      case maps on the letters a-z and A-Z, other characters are kept.
    - [Optional[T]] is [option T]; a [dict] is a [gmap string value];
      a [set] of strings is a [gset string].
    - The endpoints run in a state-and-error monad over the document
      store. *)

From Stdlib Require Import Ascii QArith Qminmax Lqa.
From stdpp Require Import gmap strings list fin_maps pretty.

(** ** Python values *)

Module Py.

(** Python floats as they arrive in a request body. *)
Inductive float : Type :=
  | Finite (q : Q)
  | PosInf
  | NegInf
  | NaN.

(** [x >= c] for a finite literal [c]. *)
Definition float_ge (x : float) (c : Q) : bool :=
  match x with
  | Finite q => Qle_bool c q
  | PosInf => true
  | NegInf | NaN => false
  end.

(** [x <= c] for a finite literal [c]. *)
Definition float_le (x : float) (c : Q) : bool :=
  match x with
  | Finite q => Qle_bool q c
  | NegInf => true
  | PosInf | NaN => false
  end.

Definition is_lower (c : ascii) : bool :=
  let n := N_of_ascii c in ((97 <=? n) && (n <=? 122))%N.

Definition is_upper (c : ascii) : bool :=
  let n := N_of_ascii c in ((65 <=? n) && (n <=? 90))%N.

Definition upper_char (c : ascii) : ascii :=
  if is_lower c then ascii_of_N (N_of_ascii c - 32) else c.

Definition lower_char (c : ascii) : ascii :=
  if is_upper c then ascii_of_N (N_of_ascii c + 32) else c.

(** [s.upper()] *)
Fixpoint upper (s : string) : string :=
  match s with
  | EmptyString => EmptyString
  | String c s' => String (upper_char c) (upper s')
  end.

(** [s.lower()] *)
Fixpoint lower (s : string) : string :=
  match s with
  | EmptyString => EmptyString
  | String c s' => String (lower_char c) (lower s')
  end.

(** Truth value of a [str]: only the empty string is falsy. *)
Definition truthy (s : string) : bool := negb (String.eqb s "").

(** Truth value of an [Optional[str]]: [None] and [""] are falsy. *)
Definition truthy_opt (o : option string) : bool :=
  match o with
  | Some s => truthy s
  | None => false
  end.

(** [o and p(o)] in a condition: [p] is only evaluated on a truthy [o]. *)
Definition and_then (o : option string) (p : string -> bool) : bool :=
  match o with
  | Some s => truthy s && p s
  | None => false
  end.

(** [o or d] for an [Optional[str]] and a string default. *)
Definition or_else (o : option string) (d : string) : string :=
  match o with
  | Some s => if truthy s then s else d
  | None => d
  end.

End Py.

(** ** Schemas ([src/schemas.py]) *)

(** Instants ([datetime]) are kept abstract as a number of microseconds. *)
Definition datetime : Type := Z.

(** What a document field can hold.  [VId] is the store's own identity
    object, the [ObjectId] that [list_transactions] turns into text. *)
Inductive value : Type :=
  | VNone
  | VStr (s : string)
  | VFloat (x : Py.float)
  | VBool (b : bool)
  | VTime (t : datetime)
  | VList (l : list string)
  | VId (n : nat).

(** A document is a [dict] from field names to values. *)
Abbreviation doc := (gmap string value).

Record Transaction : Type := mkTransaction {
  transaction_id : option string;
  user_id : string;
  amount : Py.float;
  currency : string;
  merchant : option string;
  merchant_category : option string;
  country : option string;
  channel : option string;
  timestamp : option datetime;
  device_id : option string;
  ip_address : option string;
  risk_score : option Py.float;
  risk_level : option string;
  is_fraud : option bool
}.

(** ** Risk scoring ([src/main.py], lines 60-96) *)

Definition risky_countries : gset string :=
  {[ "RU"; "NG"; "UA"; "BR"; "CN" ]}.

Definition risky_channels : gset string :=
  {[ "web"; "card-not-present" ]}.

Definition high_risk_mcc : gset string :=
  {[ "gambling"; "crypto"; "adult" ]}.

(** The value of the local [score] when the [return] of line 88 is
    reached. *)
Definition accumulated_score (tx : Transaction) : Q :=
  let score := 0%Q in
  (* Amount-based risk *)
  let score :=
    if Py.float_ge (amount tx) 5000 then (score + 50)%Q
    else if Py.float_ge (amount tx) 1000 then (score + 25)%Q
    else if Py.float_ge (amount tx) 200 then (score + 10)%Q
    else score in
  (* Country risk *)
  let score :=
    if Py.and_then (country tx)
         (fun c => bool_decide (Py.upper c ∈ risky_countries))
    then (score + 15)%Q else score in
  (* Channel risk *)
  let score :=
    if Py.and_then (channel tx)
         (fun c => bool_decide (Py.lower c ∈ risky_channels))
    then (score + 10)%Q else score in
  (* Merchant category hints *)
  let score :=
    if Py.and_then (merchant_category tx)
         (fun c => bool_decide (Py.lower c ∈ high_risk_mcc))
    then (score + 10)%Q else score in
  (* IP/device missing *)
  let score :=
    if negb (Py.truthy_opt (ip_address tx)) || negb (Py.truthy_opt (device_id tx))
    then (score + 5)%Q else score in
  score.

(** [return min(score, 100.0)] *)
Definition compute_risk_score (tx : Transaction) : Q :=
  Qmin (accumulated_score tx) 100.

Definition score_to_level (score : Q) : string :=
  if Qle_bool 70 score then "high"
  else if Qle_bool 40 score then "medium"
  else "low".

(** ** The Alert schema ([src/schemas.py], lines 65-75) *)

Module Alert.

Record t : Type := mk {
  transaction_ref : string;
  user_id : string;
  reason : string;
  risk_score : Py.float;
  risk_level : string;
  tags : option (list string)
}.

(** The constraints of the schema: [risk_score] has [ge=0, le=100]; the
    other fields are typed only. *)
Definition valid (a : t) : bool :=
  Py.float_ge (risk_score a) 0 && Py.float_le (risk_score a) 100.

(** [alert.model_dump()] *)
Definition model_dump (a : t) : doc :=
  <[ "transaction_ref" := VStr (transaction_ref a) ]>
  (<[ "user_id" := VStr (user_id a) ]>
  (<[ "reason" := VStr (reason a) ]>
  (<[ "risk_score" := VFloat (risk_score a) ]>
  (<[ "risk_level" := VStr (risk_level a) ]>
  (<[ "tags" := match tags a with Some l => VList l | None => VNone end ]>
   ∅))))).

End Alert.

(** ** Request validation ([src/schemas.py], lines 44-63)

    The body of [POST /api/transactions] is validated against
    [CreateTransactionRequest], a subclass of [Transaction] that adds
    nothing.  A [Body] is the body once each key has been read at its
    declared type: the key is absent, [null], or given with a value of
    that type.  A body in which some key holds a value that its type
    refuses has no [Body]; [post_api_transactions] below starts from the
    JSON object itself. *)

Inductive field (A : Type) : Type :=
  | Absent
  | Null
  | Given (a : A).
Arguments Absent {A}.
Arguments Null {A}.
Arguments Given {A} a.

Record Body : Type := mkBody {
  body_transaction_id : field string;
  body_user_id : field string;
  body_amount : field Py.float;
  body_currency : field string;
  body_merchant : field string;
  body_merchant_category : field string;
  body_country : field string;
  body_channel : field string;
  body_timestamp : field datetime;
  body_device_id : field string;
  body_ip_address : field string;
  body_risk_score : field Py.float;
  body_risk_level : field string;
  body_is_fraud : field bool
}.

(** [x: T = Field(...)]: the key must be given. *)
Definition required {A} (f : field A) : option A :=
  match f with
  | Given a => Some a
  | Absent | Null => None
  end.

(** [x: T = Field(d)]: the default fills an absent key, [null] is refused. *)
Definition defaulted {A} (d : A) (f : field A) : option A :=
  match f with
  | Absent => Some d
  | Null => None
  | Given a => Some a
  end.

(** [x: Optional[T] = Field(d)]: the default fills an absent key, [null]
    is [None]. *)
Definition optional {A} (d : option A) (f : field A) : option A :=
  match f with
  | Absent => d
  | Null => None
  | Given a => Some a
  end.

(** The numeric bounds of the schema: [amount] has [ge=0]; [risk_score],
    when not [None], has [ge=0, le=100]. *)
Definition amount_ok (x : Py.float) : bool := Py.float_ge x 0.

Definition risk_score_ok (o : option Py.float) : bool :=
  match o with
  | Some x => Py.float_ge x 0 && Py.float_le x 100
  | None => true
  end.

(** Validation of a body; [None] is a [ValidationError]. *)
Definition validate (b : Body) : option Transaction :=
  match required (body_user_id b), required (body_amount b),
        defaulted "USD" (body_currency b) with
  | Some uid, Some amt, Some cur =>
      let rs := optional None (body_risk_score b) in
      if amount_ok amt && risk_score_ok rs then
        Some {| transaction_id := optional None (body_transaction_id b);
                user_id := uid;
                amount := amt;
                currency := cur;
                merchant := optional None (body_merchant b);
                merchant_category := optional None (body_merchant_category b);
                country := optional (Some "US") (body_country b);
                channel := optional (Some "card") (body_channel b);
                timestamp := optional None (body_timestamp b);
                device_id := optional None (body_device_id b);
                ip_address := optional None (body_ip_address b);
                risk_score := rs;
                risk_level := optional None (body_risk_level b);
                is_fraud := optional (Some false) (body_is_fraud b) |}
      else None
  | _, _, _ => None
  end.

Definition opt_value {A} (inj : A -> value) (o : option A) : value :=
  match o with
  | Some a => inj a
  | None => VNone
  end.

(** [payload.model_dump()] *)
Definition model_dump (tx : Transaction) : doc :=
  <[ "transaction_id" := opt_value VStr (transaction_id tx) ]>
  (<[ "user_id" := VStr (user_id tx) ]>
  (<[ "amount" := VFloat (amount tx) ]>
  (<[ "currency" := VStr (currency tx) ]>
  (<[ "merchant" := opt_value VStr (merchant tx) ]>
  (<[ "merchant_category" := opt_value VStr (merchant_category tx) ]>
  (<[ "country" := opt_value VStr (country tx) ]>
  (<[ "channel" := opt_value VStr (channel tx) ]>
  (<[ "timestamp" := opt_value VTime (timestamp tx) ]>
  (<[ "device_id" := opt_value VStr (device_id tx) ]>
  (<[ "ip_address" := opt_value VStr (ip_address tx) ]>
  (<[ "risk_score" := opt_value VFloat (risk_score tx) ]>
  (<[ "risk_level" := opt_value VStr (risk_level tx) ]>
  (<[ "is_fraud" := opt_value VBool (is_fraud tx) ]>
   ∅))))))))))))).

(** Truth value of [d.get(k)]. *)
Definition value_truthy (o : option value) : bool :=
  match o with
  | None | Some VNone => false
  | Some (VStr s) => Py.truthy s
  | Some (VFloat (Py.Finite q)) => negb (Qeq_bool q 0)
  | Some (VFloat _) => true
  | Some (VBool b) => b
  | Some (VTime _) => true
  | Some (VList l) => match l with [] => false | _ => true end
  | Some (VId _) => true
  end.

(** ** The document store and the effects of an endpoint *)

Inductive error : Type :=
  | ValidationError   (* the request body is refused *)
  | ModelError        (* a schema constructor inside a handler refuses its arguments *)
  | StorageError      (* the store failed to insert or to fetch *)
  | RenderError.      (* the report of a refusal could not be written: a server error *)

Inductive result (A : Type) : Type :=
  | Ok (a : A)
  | Err (e : error).
Arguments Ok {A} a.
Arguments Err {A} e.

(** Modelled from the spec: the document store behind the repository's
    [database] module, which is not among the sources.  It holds the
    named collections ("transaction" and "alert"), the counter from which
    identities are drawn, and the outcomes of the coming store operations
    ([true]: the operation fails with a [StorageError]; past the end of
    the list every operation succeeds). *)
Record Store : Type := mkStore {
  collections : gmap string (list doc);
  next_id : nat;
  faults : list bool
}.

Definition empty_store (fs : list bool) : Store :=
  {| collections := ∅; next_id := 0; faults := fs |}.

(** [db[name]], empty when the collection was never written. *)
Definition collection (name : string) (st : Store) : list doc :=
  default [] (collections st !! name).

(** An endpoint threads the store and may fail; a failure keeps the
    store as it was when the failure occurred (nothing is rolled back). *)
Definition M (A : Type) : Type := Store -> result A * Store.

Definition ret {A} (a : A) : M A := fun st => (Ok a, st).

Definition raise {A} (e : error) : M A := fun st => (Err e, st).

Definition bind {A B} (m : M A) (k : A -> M B) : M B :=
  fun st =>
    match m st with
    | (Ok a, st') => k a st'
    | (Err e, st') => (Err e, st')
    end.

Notation "'let*' x ':=' m 'in' k" := (bind m (fun x => k))
  (at level 10, x name, m at level 100, k at level 200, only parsing).

Section Service.

(** Text rendering is the Python runtime's: [str(x)] (also what an
    f-string does to a value) and [datetime.isoformat()]. *)
Variable str : value -> string.
Variable isoformat : datetime -> string.

(** Modelled from the spec: the store after a successful insertion.  The
    document joins the end of the named collection under the next
    identity, kept in it under ["_id"] (the key that the list endpoints
    turn into text). *)
Definition insert_one (collection_name : string) (data : doc) (st : Store) : Store :=
  {| collections :=
       <[ collection_name :=
            collection collection_name st ++ [ <[ "_id" := VId (next_id st) ]> data ] ]>
       (collections st);
     next_id := S (next_id st);
     faults := tail (faults st) |}.

(** Modelled from the spec: the store after an operation that read or
    failed.  Only the pending outcome is used up. *)
Definition used_up (st : Store) : Store :=
  {| collections := collections st; next_id := next_id st; faults := tail (faults st) |}.

(** Modelled from the spec: [create_document] of the repository's
    [database] module, which is not among the sources.  "Insert one
    document, get back its identity": the document is appended to the
    named collection under a fresh identity and the identity is returned
    as text; a schema object is handed over as its dump.  A failure of the
    store is a [StorageError] and writes nothing. *)
Definition create_document (collection_name : string) (data : doc) : M string :=
  fun st =>
    match faults st with
    | true :: _ => (Err StorageError, used_up st)
    | _ => (Ok (str (VId (next_id st))), insert_one collection_name data st)
    end.

(** Modelled from the spec: [get_documents] of the same module.  "Fetch
    up to N documents" of the named collection, in the store's order; both
    callers pass the empty filter, which selects every document.  A
    failure of the store is a [StorageError]. *)
Definition get_documents (collection_name : string) (limit : Z) : M (list doc) :=
  fun st =>
    match faults st with
    | true :: _ => (Err StorageError, used_up st)
    | _ => (Ok (take (Z.to_nat limit) (collection collection_name st)), used_up st)
    end.

(** ** Creating a transaction ([src/main.py], lines 99-141) *)

Record CreateTransactionResponse : Type := mkResponse {
  id : string;
  response_risk_score : Q;
  response_risk_level : string
}.

(** [Alert(...)]: the constructor checks the schema. *)
Definition new_alert (a : Alert.t) : M Alert.t :=
  if Alert.valid a then ret a else raise ModelError.

(** Lines 116-124: the dumped payload with the timestamp defaulted and
    the score and level written over whatever the payload carried. *)
Definition scored_data (payload : Transaction) (now : datetime)
    (score : Q) (level : string) : doc :=
  let data := model_dump payload in
  let data :=
    if negb (value_truthy (data !! "timestamp"))
    then <[ "timestamp" := VTime now ]> data else data in
  let data := <[ "risk_score" := VFloat (Py.Finite score) ]> data in
  let data := <[ "risk_level" := VStr level ]> data in
  data.

(** Lines 131-138: the arguments handed to [Alert(...)]. *)
Definition alert_fields (payload : Transaction) (inserted_id : string)
    (score : Q) (level : string) : Alert.t :=
  {| Alert.transaction_ref := inserted_id;
     Alert.user_id := user_id payload;
     Alert.reason :=
       "High-risk transaction: $" +:+ str (VFloat (amount payload))
       +:+ " " +:+ currency payload +:+ " at "
       +:+ Py.or_else (merchant payload) "unknown merchant";
     Alert.risk_score := Py.Finite score;
     Alert.risk_level := level;
     Alert.tags :=
       Some (omap (fun t => if Py.truthy_opt t then t else None)
               [merchant_category payload; channel payload; country payload]) |}.

Definition create_transaction (payload : Transaction) (now : datetime)
  : M CreateTransactionResponse :=
  (* Compute risk *)
  let score := compute_risk_score payload in
  let level := score_to_level score in
  let data := scored_data payload now score level in
  (* Store transaction *)
  let* inserted_id := create_document "transaction" data in
  (* If high risk, create an alert *)
  let* _ :=
    if String.eqb level "high" then
      let* alert := new_alert (alert_fields payload inserted_id score level) in
      let* _ := create_document "alert" (Alert.model_dump alert) in
      ret tt
    else ret tt in
  ret {| id := inserted_id;
         response_risk_score := score;
         response_risk_level := level |}.

(** Validation of a typed body, then the handler: a refused body never
    reaches the handler.  [ValidationError] says here that validation
    refused; how the refusal is reported to the caller is the part of
    [post_api_transactions]. *)
Definition post_transactions (body : Body) (now : datetime)
  : M CreateTransactionResponse :=
  match validate body with
  | Some payload => create_transaction payload now
  | None => raise ValidationError
  end.

(** ** Listing ([src/main.py], lines 144-166) *)

(** [limit or 50] for an [Optional[int]]. *)
Definition or_50 (limit : option Z) : Z :=
  match limit with
  | Some l => if (l =? 0)%Z then 50%Z else l
  | None => 50%Z
  end.

(** [min(max(1, limit or 50), 200)] *)
Definition clamp_limit (limit : option Z) : Z :=
  Z.min (Z.max 1 (or_50 limit)) 200.

(** [if "_id" in it: it["_id"] = str(it["_id"])] *)
Definition id_to_str (it : doc) : doc :=
  match it !! "_id" with
  | Some v => <[ "_id" := VStr (str v) ]> it
  | None => it
  end.

(** [if isinstance(it.get(k), datetime): it[k] = it[k].isoformat()] *)
Definition time_to_iso (k : string) (it : doc) : doc :=
  match it !! k with
  | Some (VTime t) => <[ k := VStr (isoformat t) ]> it
  | _ => it
  end.

Definition list_transactions (limit : option Z) : M (list doc) :=
  let limit := clamp_limit limit in
  let* items := get_documents "transaction" limit in
  ret (map (fun it => time_to_iso "timestamp" (id_to_str it)) items).

Definition list_alerts (limit : option Z) : M (list doc) :=
  let limit := clamp_limit limit in
  let* items := get_documents "alert" limit in
  ret (map (fun it => time_to_iso "created_at" (id_to_str it)) items).

End Service.

(** ** The rules of the scorer, as the specification words them *)

Module Rules.

(** Two characters are the same letter when they are equal or when one
    is a capital A-Z and the other the small letter 32 codes above it. *)
Definition same_letter (a b : ascii) : bool :=
  let x := N_of_ascii a in
  let y := N_of_ascii b in
  ((x =? y) || (Py.is_upper a && (y =? x + 32)) || (Py.is_upper b && (x =? y + 32)))%N.

(** Case-insensitive comparison of two strings. *)
Fixpoint caseless_eqb (s t : string) : bool :=
  match s, t with
  | EmptyString, EmptyString => true
  | String a s', String b t' => same_letter a b && caseless_eqb s' t'
  | _, _ => false
  end.

(** The field, compared case-insensitively, is one of the names; an
    absent field is none of them. *)
Definition one_of (o : option string) (names : list string) : bool :=
  match o with
  | Some s => existsb (caseless_eqb s) names
  | None => false
  end.

(** Absent (null) or empty. *)
Definition blank (o : option string) : bool :=
  match o with
  | Some s => String.eqb s ""
  | None => true
  end.

Definition points (p : Q) (applies : bool) : Q := if applies then p else 0%Q.

(** Rule 1: the amount bracket. *)
Definition amount_points (a : Py.float) : Q :=
  if Py.float_ge a 5000 then 50%Q
  else if Py.float_ge a 1000 then 25%Q
  else if Py.float_ge a 200 then 10%Q
  else 0%Q.

(** Rules 2 to 5. *)
Definition country_points (tx : Transaction) : Q :=
  points 15 (one_of (country tx) ["RU"; "NG"; "UA"; "BR"; "CN"]).

Definition channel_points (tx : Transaction) : Q :=
  points 10 (one_of (channel tx) ["web"; "card-not-present"]).

Definition category_points (tx : Transaction) : Q :=
  points 10 (one_of (merchant_category tx) ["gambling"; "crypto"; "adult"]).

Definition identity_points (tx : Transaction) : Q :=
  points 5 (blank (ip_address tx) || blank (device_id tx)).

(** The sum of the contributions, before the clamp. *)
Definition raw_sum (tx : Transaction) : Q :=
  (amount_points (amount tx) + country_points tx + channel_points tx
   + category_points tx + identity_points tx)%Q.

End Rules.

(** ** Vocabulary of the statements *)

(** The documents that a call appended to a collection. *)
Definition written (name : string) (st st' : Store) : list doc :=
  drop (length (collection name st)) (collection name st').

Definition is_ok {A} (r : result A) : bool :=
  match r with
  | Ok _ => true
  | Err _ => false
  end.

(** The limit a list call works with, as a table of the requested one. *)
Definition effective_limit (requested : option Z) : Z :=
  match requested with
  | None => 50
  | Some l =>
      if l =? 0 then 50
      else if l <? 0 then 1
      else if 200 <? l then 200
      else l
  end%Z.

(** A body with the caller's [risk_score] and [risk_level] removed. *)
Definition without_scores (b : Body) : Body :=
  {| body_transaction_id := body_transaction_id b;
     body_user_id := body_user_id b;
     body_amount := body_amount b;
     body_currency := body_currency b;
     body_merchant := body_merchant b;
     body_merchant_category := body_merchant_category b;
     body_country := body_country b;
     body_channel := body_channel b;
     body_timestamp := body_timestamp b;
     body_device_id := body_device_id b;
     body_ip_address := body_ip_address b;
     body_risk_score := Absent;
     body_risk_level := Absent;
     body_is_fraud := body_is_fraud b |}.

(** A body with the caller's [risk_score], [risk_level] and [is_fraud]
    removed. *)
Definition without_labels (b : Body) : Body :=
  {| body_transaction_id := body_transaction_id b;
     body_user_id := body_user_id b;
     body_amount := body_amount b;
     body_currency := body_currency b;
     body_merchant := body_merchant b;
     body_merchant_category := body_merchant_category b;
     body_country := body_country b;
     body_channel := body_channel b;
     body_timestamp := body_timestamp b;
     body_device_id := body_device_id b;
     body_ip_address := body_ip_address b;
     body_risk_score := Absent;
     body_risk_level := Absent;
     body_is_fraud := Absent |}.

(** A payload with the three label fields replaced. *)
Definition with_labels (rs : option Py.float) (rl : option string)
    (fr : option bool) (tx : Transaction) : Transaction :=
  {| transaction_id := transaction_id tx;
     user_id := user_id tx;
     amount := amount tx;
     currency := currency tx;
     merchant := merchant tx;
     merchant_category := merchant_category tx;
     country := country tx;
     channel := channel tx;
     timestamp := timestamp tx;
     device_id := device_id tx;
     ip_address := ip_address tx;
     risk_score := rs;
     risk_level := rl;
     is_fraud := fr |}.

(** The field as a tag: nothing when it is null or empty. *)
Definition present (o : option string) : list string :=
  match o with
  | Some s => if String.eqb s "" then [] else [s]
  | None => []
  end.

(** A key of the body that carries no value. *)
Definition missing {A} (f : field A) : bool :=
  match f with
  | Given _ => false
  | Absent | Null => true
  end.


(** A caller-supplied [risk_score] that the schema lets through. *)
Definition score_admissible (f : field Py.float) : bool :=
  match f with
  | Given x => Py.float_ge x 0 && Py.float_le x 100
  | Absent | Null => true
  end.

(** ** Runs of the service *)

Section Runs.

Variable str : value -> string.
Variable isoformat : datetime -> string.

(** One call of an endpoint.  The handler of a create call is run on any
    payload; those that validation lets through are among them, and a
    refused body leaves the store as it is. *)
Inductive step : Store -> Store -> Prop :=
  | step_create payload now st :
      step st (snd (create_transaction str payload now st))
  | step_list_transactions limit st :
      step st (snd (list_transactions str isoformat limit st))
  | step_list_alerts limit st :
      step st (snd (list_alerts str isoformat limit st)).

(** The stores the service can be in, from an empty store with any
    schedule of store failures. *)
Inductive reachable : Store -> Prop :=
  | reachable_empty fs : reachable (empty_store fs)
  | reachable_step st st' : reachable st -> step st st' -> reachable st'.

(** What an alert document owes to the transaction it refers to. *)
Definition alert_sound (st : Store) (a : doc) : Prop :=
  a !! "risk_level" = Some (VStr "high")
  /\ (exists q, a !! "risk_score" = Some (VFloat (Py.Finite q)) /\ (70 <= q)%Q)
  /\ exists (t : doc) (n : nat),
       t ∈ collection "transaction" st
       /\ t !! "_id" = Some (VId n)
       /\ (forall t' : doc, t' ∈ collection "transaction" st ->
             t' !! "_id" = Some (VId n) -> t' = t)
       /\ a !! "transaction_ref" = Some (VStr (str (VId n)))
       /\ t !! "risk_score" = a !! "risk_score"
       /\ t !! "risk_level" = a !! "risk_level"
       /\ t !! "user_id" = a !! "user_id".

(** Every stored transaction carries an identity drawn from the counter. *)
Definition transactions_indexed (st : Store) : Prop :=
  forall (i : nat) (t : doc),
    collection "transaction" st !! i = Some t ->
    exists n, t !! "_id" = Some (VId n) /\ n < next_id st.

(** No two stored transactions carry the same identity. *)
Definition identities_distinct (st : Store) : Prop :=
  forall (i j : nat) (t t' : doc),
    collection "transaction" st !! i = Some t ->
    collection "transaction" st !! j = Some t' ->
    t !! "_id" = t' !! "_id" -> i = j.

Definition store_inv (st : Store) : Prop :=
  transactions_indexed st
  /\ identities_distinct st
  /\ Forall (alert_sound st) (collection "alert" st).

End Runs.

(** ** Sample inputs *)

(** Scenario 1 of the specification, in mixed case. *)
Definition demo_tx : Transaction :=
  {| transaction_id := None; user_id := "u1"; amount := Py.Finite 6000;
     currency := "USD"; merchant := None; merchant_category := Some "Gambling";
     country := Some "ru"; channel := Some "WEB"; timestamp := None;
     device_id := None; ip_address := None;
     risk_score := None; risk_level := None; is_fraud := Some false |}.

Definition demo_body : Body :=
  {| body_transaction_id := Absent; body_user_id := Given "u1";
     body_amount := Given (Py.Finite 6000); body_currency := Absent;
     body_merchant := Absent; body_merchant_category := Given "Gambling";
     body_country := Given "ru"; body_channel := Given "WEB";
     body_timestamp := Absent; body_device_id := Absent;
     body_ip_address := Absent; body_risk_score := Absent;
     body_risk_level := Absent; body_is_fraud := Absent |}.

(** Scenarios 2 to 4 of the specification. *)
Definition scenario_2 : Transaction :=
  {| transaction_id := None; user_id := "u2"; amount := Py.Finite 150;
     currency := "USD"; merchant := None; merchant_category := None;
     country := Some "US"; channel := Some "card"; timestamp := None;
     device_id := Some "d1"; ip_address := Some "1.2.3.4";
     risk_score := None; risk_level := None; is_fraud := Some false |}.

Definition scenario_3 : Transaction :=
  {| transaction_id := None; user_id := "u3"; amount := Py.Finite 1200;
     currency := "USD"; merchant := None; merchant_category := None;
     country := Some "DE"; channel := Some "mobile"; timestamp := None;
     device_id := None; ip_address := None;
     risk_score := None; risk_level := None; is_fraud := Some false |}.

Definition scenario_4 : Transaction :=
  {| transaction_id := None; user_id := "u4"; amount := Py.Finite 500;
     currency := "USD"; merchant := None; merchant_category := Some "adult";
     country := Some "NG"; channel := Some "card-not-present"; timestamp := None;
     device_id := Some "dev"; ip_address := Some "9.9.9.9";
     risk_score := None; risk_level := None; is_fraud := Some false |}.

(** A transaction whose country is empty and whose channel and merchant
    category are null. *)
Definition blank_tx : Transaction :=
  {| transaction_id := None; user_id := "u5"; amount := Py.Finite 1200;
     currency := "USD"; merchant := None; merchant_category := None;
     country := Some ""; channel := None; timestamp := None;
     device_id := None; ip_address := Some "";
     risk_score := None; risk_level := None; is_fraud := None |}.

(** A "high" transaction whose merchant category repeats its channel. *)
Definition repeated_tag_tx : Transaction :=
  {| transaction_id := None; user_id := "u6"; amount := Py.Finite 6000;
     currency := "USD"; merchant := Some "m"; merchant_category := Some "web";
     country := Some "RU"; channel := Some "web"; timestamp := Some 5%Z;
     device_id := None; ip_address := None;
     risk_score := None; risk_level := None; is_fraud := None |}.

(** The same request with a [risk_score] of 150 supplied by the caller. *)
Definition demo_body_score_150 : Body :=
  {| body_transaction_id := Absent; body_user_id := Given "u1";
     body_amount := Given (Py.Finite 6000); body_currency := Absent;
     body_merchant := Absent; body_merchant_category := Given "Gambling";
     body_country := Given "ru"; body_channel := Given "WEB";
     body_timestamp := Absent; body_device_id := Absent;
     body_ip_address := Absent; body_risk_score := Given (Py.Finite 150);
     body_risk_level := Absent; body_is_fraud := Absent |}.

(** The same request with low [risk_score] and [risk_level] supplied by
    the caller. *)
Definition demo_body_scored : Body :=
  {| body_transaction_id := Absent; body_user_id := Given "u1";
     body_amount := Given (Py.Finite 6000); body_currency := Absent;
     body_merchant := Absent; body_merchant_category := Given "Gambling";
     body_country := Given "ru"; body_channel := Given "WEB";
     body_timestamp := Absent; body_device_id := Absent;
     body_ip_address := Absent; body_risk_score := Given (Py.Finite 1);
     body_risk_level := Given "low"; body_is_fraud := Absent |}.

(** The same request with [is_fraud] set by the caller. *)
Definition demo_body_fraud : Body :=
  {| body_transaction_id := Absent; body_user_id := Given "u1";
     body_amount := Given (Py.Finite 6000); body_currency := Absent;
     body_merchant := Absent; body_merchant_category := Given "Gambling";
     body_country := Given "ru"; body_channel := Given "WEB";
     body_timestamp := Absent; body_device_id := Absent;
     body_ip_address := Absent; body_risk_score := Absent;
     body_risk_level := Absent; body_is_fraud := Given true |}.

(** A rendering of values to stand for [str] where a run is evaluated. *)
Definition demo_str (v : value) : string :=
  match v with
  | VId n => "oid-" +:+ pretty n
  | _ => "6000.0"
  end.

Definition demo_iso (t : datetime) : string := "1970-01-01T00:00:00+00:00".

(** The store after scenario 1 on an empty store that does not fail. *)
Definition demo_store : Store :=
  snd (create_transaction demo_str demo_tx 0%Z (empty_store [])).

(** ** The diagnostic endpoint ([src/main.py], lines 26-56) *)

Module Db.

(** What [test_database] asks of the [db] handle: its [name] attribute,
    when it has one, and [list_collection_names()], which returns the
    names or raises an exception.  The text of the exception is given
    character by character, each character as the string that encodes
    it, so that a slice counts characters and not bytes. *)
Record t : Type := mk {
  name : option string;
  list_collection_names : list string + list string
}.

End Db.

(** [GET /test].  [db] is [None] when the database was not initialised;
    [getenv] reads the environment.  The handle's own operations raise
    nothing but what [list_collection_names] raises, so the outer
    [except] has nothing to catch.  [str(e)[:50]] keeps the first 50
    characters of the exception's text. *)
Definition test_database (db : option Db.t) (getenv : string -> option string) : doc :=
  let response : doc :=
    <[ "backend" := VStr "✅ Running" ]>
    (<[ "database" := VStr "❌ Not Available" ]>
    (<[ "database_url" := VNone ]>
    (<[ "database_name" := VNone ]>
    (<[ "connection_status" := VStr "Not Connected" ]>
    (<[ "collections" := VList [] ]> ∅))))) in
  let response :=
    match db with
    | Some d =>
        let response := <[ "database" := VStr "✅ Available" ]> response in
        let response := <[ "database_url" := VStr "✅ Configured" ]> response in
        let response :=
          <[ "database_name" :=
               VStr (match Db.name d with Some n => n | None => "✅ Connected" end) ]>
          response in
        let response := <[ "connection_status" := VStr "Connected" ]> response in
        match Db.list_collection_names d with
        | inr collections =>
            let response := <[ "collections" := VList (take 10 collections) ]> response in
            <[ "database" := VStr "✅ Connected & Working" ]> response
        | inl e =>
            <[ "database" :=
                 VStr ("⚠️  Connected but Error: " +:+ String.concat "" (take 50 e)) ]>
            response
        end
    | None => <[ "database" := VStr "⚠️  Available but not initialized" ]> response
    end in
  let response :=
    <[ "database_url" :=
         VStr (if Py.truthy_opt (getenv "DATABASE_URL") then "✅ Set" else "❌ Not Set") ]>
    response in
  let response :=
    <[ "database_name" :=
         VStr (if Py.truthy_opt (getenv "DATABASE_NAME") then "✅ Set" else "❌ Not Set") ]>
    response in
  response.

(** ** Further vocabulary *)

(** A payload with its amount replaced. *)
Definition with_amount (a : Py.float) (tx : Transaction) : Transaction :=
  {| transaction_id := transaction_id tx;
     user_id := user_id tx;
     amount := a;
     currency := currency tx;
     merchant := merchant tx;
     merchant_category := merchant_category tx;
     country := country tx;
     channel := channel tx;
     timestamp := timestamp tx;
     device_id := device_id tx;
     ip_address := ip_address tx;
     risk_score := risk_score tx;
     risk_level := risk_level tx;
     is_fraud := is_fraud tx |}.

(** Two optional fields that are both null, or equal up to letter case. *)
Definition caseless_opt (o o' : option string) : bool :=
  match o, o' with
  | Some s, Some t => Rules.caseless_eqb s t
  | None, None => true
  | _, _ => false
  end.

(** The condition on the rules other than the amount under which a
    transaction of the top amount bracket reaches 70 points. *)
Definition twenty_more (tx : Transaction) : bool :=
  let country_risk := Rules.one_of (country tx) ["RU"; "NG"; "UA"; "BR"; "CN"] in
  let channel_risk := Rules.one_of (channel tx) ["web"; "card-not-present"] in
  let category_risk := Rules.one_of (merchant_category tx) ["gambling"; "crypto"; "adult"] in
  let no_identity := Rules.blank (ip_address tx) || Rules.blank (device_id tx) in
  (country_risk && (channel_risk || category_risk || no_identity))
  || (channel_risk && category_risk).

(** How a listed item [it] relates to the stored document [d]: the
    identity becomes its text, a datetime under [key] becomes its ISO
    text, every other entry is the stored one. *)
Definition listed (str : value -> string) (isoformat : datetime -> string)
    (key : string) (d it : doc) : Prop :=
  it !! "_id" = (fun v => VStr (str v)) <$> d !! "_id"
  /\ it !! key = match d !! key with
                 | Some (VTime t) => Some (VStr (isoformat t))
                 | o => o
                 end
  /\ forall k : string, k <> "_id" -> k <> key -> it !! k = d !! k.

(** The keys that [create_transaction] writes itself. *)
Definition written_keys : list string :=
  ["_id"; "timestamp"; "risk_score"; "risk_level"].

(** ** The request as it arrives ([src/main.py], lines 114-115)

    The body of the request is a JSON object.  Its keys are read at the
    types that [CreateTransactionRequest] declares, the result is
    validated, and a refusal is reported to the caller with the input of
    each error. *)

(** A JSON value as [json.loads] reads it; the number literals
    [Infinity], [-Infinity] and [NaN] are read too. *)
Inductive json : Type :=
  | JNull
  | JBool (b : bool)
  | JNumber (x : Py.float)
  | JString (s : string)
  | JArray (items : list json)
  | JObject (members : list (string * json)).



(** A bound that every value meets. *)
Definition any {A} (a : A) : bool := true.

Definition in_score_range (x : Py.float) : bool := risk_score_ok (Some x).

Section Endpoint.

(** How the validation library reads a JSON value at a declared type;
    [None] when the type refuses the value. *)
Variable coerce_str : json -> option string.
Variable coerce_float : json -> option Py.float.
Variable coerce_datetime : json -> option datetime.
Variable coerce_bool : json -> option bool.

Variable str : value -> string.

(** A key read at its type: absent, [null], or a value of the type;
    [None] when the type refuses what the key holds. *)
Definition read {A} (coerce : json -> option A) (o : option json) : option (field A) :=
  match o with
  | None => Some Absent
  | Some JNull => Some Null
  | Some v => Given <$> coerce v
  end.

(** The body with every key read at its declared type; keys that the
    schema does not declare are ignored. *)
Definition typed (raw : gmap string json) : option Body :=
  tid ← read coerce_str (raw !! "transaction_id");
  uid ← read coerce_str (raw !! "user_id");
  amt ← read coerce_float (raw !! "amount");
  cur ← read coerce_str (raw !! "currency");
  mer ← read coerce_str (raw !! "merchant");
  cat ← read coerce_str (raw !! "merchant_category");
  cou ← read coerce_str (raw !! "country");
  cha ← read coerce_str (raw !! "channel");
  tim ← read coerce_datetime (raw !! "timestamp");
  dev ← read coerce_str (raw !! "device_id");
  ipa ← read coerce_str (raw !! "ip_address");
  rsc ← read coerce_float (raw !! "risk_score");
  rlv ← read coerce_str (raw !! "risk_level");
  frd ← read coerce_bool (raw !! "is_fraud");
  Some {| body_transaction_id := tid; body_user_id := uid; body_amount := amt;
          body_currency := cur; body_merchant := mer;
          body_merchant_category := cat; body_country := cou;
          body_channel := cha; body_timestamp := tim; body_device_id := dev;
          body_ip_address := ipa; body_risk_score := rsc;
          body_risk_level := rlv; body_is_fraud := frd |}.

(** The inputs of the errors that validation reports for a key: the
    whole body for a required key that is absent, the key's value when
    its type or its bound refuses it. *)
Definition key_errors {A} (coerce : json -> option A) (ok : A -> bool)
    (nullable must : bool) (raw : gmap string json) (k : string) : list json :=
  match raw !! k with
  | None => if must then [JObject (map_to_list raw)] else []
  | Some JNull => if nullable then [] else [JNull]
  | Some v =>
      match coerce v with
      | Some a => if ok a then [] else [v]
      | None => [v]
      end
  end.

(** The inputs of all the errors of a body, key by key as the schema
    declares them. *)
Definition error_inputs (raw : gmap string json) : list json :=
  key_errors coerce_str any true false raw "transaction_id"
  ++ key_errors coerce_str any false true raw "user_id"
  ++ key_errors coerce_float amount_ok false true raw "amount"
  ++ key_errors coerce_str any false false raw "currency"
  ++ key_errors coerce_str any true false raw "merchant"
  ++ key_errors coerce_str any true false raw "merchant_category"
  ++ key_errors coerce_str any true false raw "country"
  ++ key_errors coerce_str any true false raw "channel"
  ++ key_errors coerce_datetime any true false raw "timestamp"
  ++ key_errors coerce_str any true false raw "device_id"
  ++ key_errors coerce_str any true false raw "ip_address"
  ++ key_errors coerce_float in_score_range true false raw "risk_score"
  ++ key_errors coerce_str any true false raw "risk_level"
  ++ key_errors coerce_bool any true false raw "is_fraud".









End Endpoint.










(** * Properties *)

(** ** Case maps *)

Lemma N_of_ascii_inj (a b : ascii) : N_of_ascii a = N_of_ascii b -> a = b.
Proof.
  intros H. rewrite <- (ascii_N_embedding a), <- (ascii_N_embedding b).
  now rewrite H.
Qed.

Lemma N_of_upper_char (a : ascii) :
  N_of_ascii (Py.upper_char a) =
  if Py.is_lower a then (N_of_ascii a - 32)%N else N_of_ascii a.
Proof.
  unfold Py.upper_char. destruct (Py.is_lower a); [|reflexivity].
  apply N_ascii_embedding. pose proof (N_ascii_bounded a). lia.
Qed.

Lemma N_of_lower_char (a : ascii) :
  N_of_ascii (Py.lower_char a) =
  if Py.is_upper a then (N_of_ascii a + 32)%N else N_of_ascii a.
Proof.
  unfold Py.lower_char. destruct (Py.is_upper a) eqn:E; [|reflexivity].
  apply N_ascii_embedding. unfold Py.is_upper in E. cbv zeta in E.
  apply andb_prop in E as [_ E]. apply N.leb_le in E. lia.
Qed.

Ltac letter_cases :=
  unfold Rules.same_letter, Py.is_upper, Py.is_lower; cbv zeta;
  repeat match goal with
  | |- context [ (?x <=? ?y)%N ] => destruct (N.leb_spec x y)
  | |- context [ (?x =? ?y)%N ] => destruct (N.eqb_spec x y)
  end; cbn [andb orb]; intros; try lia; try congruence.

Lemma same_letter_upper (a b : ascii) :
  Rules.same_letter a b = true <-> Py.upper_char a = Py.upper_char b.
Proof.
  split.
  - intros H. apply N_of_ascii_inj. rewrite !N_of_upper_char.
    revert H. letter_cases.
  - intros H. apply (f_equal N_of_ascii) in H. rewrite !N_of_upper_char in H.
    revert H. letter_cases.
Qed.

Lemma same_letter_lower (a b : ascii) :
  Rules.same_letter a b = true <-> Py.lower_char a = Py.lower_char b.
Proof.
  split.
  - intros H. apply N_of_ascii_inj. rewrite !N_of_lower_char.
    revert H. letter_cases.
  - intros H. apply (f_equal N_of_ascii) in H. rewrite !N_of_lower_char in H.
    revert H. letter_cases.
Qed.

Lemma caseless_upper (s t : string) :
  Rules.caseless_eqb s t = true <-> Py.upper s = Py.upper t.
Proof.
  revert t. induction s as [|a s IH]; intros [|b t]; cbn; try easy.
  rewrite andb_true_iff, same_letter_upper, IH. split.
  - intros [-> ->]. reflexivity.
  - intros H. now inversion H.
Qed.

Lemma caseless_lower (s t : string) :
  Rules.caseless_eqb s t = true <-> Py.lower s = Py.lower t.
Proof.
  revert t. induction s as [|a s IH]; intros [|b t]; cbn; try easy.
  rewrite andb_true_iff, same_letter_lower, IH. split.
  - intros [-> ->]. reflexivity.
  - intros H. now inversion H.
Qed.

(** A case map followed by a look-up in a set of names already in that
    case is a case-insensitive look-up. *)
Lemma one_of_mapped (f : string -> string) (names : list string) (c : string) :
  (forall s t, Rules.caseless_eqb s t = true <-> f s = f t) ->
  Forall (fun m => f m = m) names ->
  existsb (Rules.caseless_eqb c) names = true <-> f c ∈ names.
Proof.
  intros Hf Hfix. rewrite existsb_exists. split.
  - intros (m & Hin & Heq). apply Hf in Heq.
    rewrite Forall_forall in Hfix. apply list_elem_of_In in Hin.
    rewrite Heq, (Hfix m Hin). exact Hin.
  - intros Hin. exists (f c). split; [now apply list_elem_of_In|].
    apply Hf. rewrite Forall_forall in Hfix. now rewrite (Hfix _ Hin).
Qed.

Lemma and_then_one_of (f : string -> string) (S : gset string)
    (names : list string) (o : option string) :
  (forall s t, Rules.caseless_eqb s t = true <-> f s = f t) ->
  Forall (fun m => f m = m) names ->
  f "" ∉ names ->
  (forall x, x ∈ S <-> x ∈ names) ->
  Py.and_then o (fun c => bool_decide (f c ∈ S)) = Rules.one_of o names.
Proof.
  intros Hf Hfix Hemp HS. destruct o as [c|]; [|reflexivity]. cbn.
  apply eq_true_iff_eq.
  rewrite andb_true_iff, bool_decide_eq_true, HS, (one_of_mapped f) by assumption.
  split; [tauto|]. intros Hin. split; [|exact Hin].
  unfold Py.truthy. destruct (String.eqb_spec c ""); [subst; contradiction|reflexivity].
Qed.

Ltac names_fixed := repeat constructor.
Ltac not_a_name := rewrite !elem_of_cons, elem_of_nil; intros H; repeat destruct H as [H|H]; discriminate || exact H.
Ltac set_as_list :=
  intros x; rewrite !elem_of_union, !elem_of_singleton, !elem_of_cons, elem_of_nil; tauto.

Lemma country_rule (tx : Transaction) :
  Py.and_then (country tx) (fun c => bool_decide (Py.upper c ∈ risky_countries))
  = Rules.one_of (country tx) ["RU"; "NG"; "UA"; "BR"; "CN"].
Proof.
  apply and_then_one_of.
  - exact caseless_upper.
  - names_fixed.
  - not_a_name.
  - unfold risky_countries. set_as_list.
Qed.

Lemma channel_rule (tx : Transaction) :
  Py.and_then (channel tx) (fun c => bool_decide (Py.lower c ∈ risky_channels))
  = Rules.one_of (channel tx) ["web"; "card-not-present"].
Proof.
  apply and_then_one_of.
  - exact caseless_lower.
  - names_fixed.
  - not_a_name.
  - unfold risky_channels. set_as_list.
Qed.

Lemma category_rule (tx : Transaction) :
  Py.and_then (merchant_category tx) (fun c => bool_decide (Py.lower c ∈ high_risk_mcc))
  = Rules.one_of (merchant_category tx) ["gambling"; "crypto"; "adult"].
Proof.
  apply and_then_one_of.
  - exact caseless_lower.
  - names_fixed.
  - not_a_name.
  - unfold high_risk_mcc. set_as_list.
Qed.

Lemma not_truthy_blank (o : option string) :
  negb (Py.truthy_opt o) = Rules.blank o.
Proof. destruct o; cbn; [apply negb_involutive | reflexivity]. Qed.

(** The scorer accumulates exactly the sum of the five contributions. *)
Lemma accumulated_score_raw_sum (tx : Transaction) :
  accumulated_score tx = Rules.raw_sum tx.
Proof.
  unfold accumulated_score, Rules.raw_sum, Rules.amount_points,
    Rules.country_points, Rules.channel_points, Rules.category_points,
    Rules.identity_points, Rules.points.
  cbv zeta. rewrite country_rule, channel_rule, category_rule, !not_truthy_blank.
  destruct (Py.float_ge (amount tx) 5000), (Py.float_ge (amount tx) 1000),
    (Py.float_ge (amount tx) 200),
    (Rules.one_of (country tx) _), (Rules.one_of (channel tx) _),
    (Rules.one_of (merchant_category tx) _),
    (Rules.blank (ip_address tx) || Rules.blank (device_id tx)); reflexivity.
Qed.

Ltac by_rules tx :=
  unfold Rules.raw_sum, Rules.amount_points, Rules.country_points,
    Rules.channel_points, Rules.category_points, Rules.identity_points,
    Rules.points;
  destruct (Py.float_ge (amount tx) 5000), (Py.float_ge (amount tx) 1000),
    (Py.float_ge (amount tx) 200),
    (Rules.one_of (country tx) _), (Rules.one_of (channel tx) _),
    (Rules.one_of (merchant_category tx) _),
    (Rules.blank (ip_address tx) || Rules.blank (device_id tx)).

Lemma raw_sum_bounds (tx : Transaction) :
  (0 <= Rules.raw_sum tx <= 90)%Q.
Proof. by_rules tx; split; discriminate. Qed.

Lemma raw_sum_multiple_of_5 (tx : Transaction) :
  exists k : Z, Rules.raw_sum tx = inject_Z (5 * k).
Proof.
  exists (Qnum (Rules.raw_sum tx) / 5)%Z. by_rules tx; reflexivity.
Qed.

Lemma Qmin_100_id (q : Q) : (q <= 90)%Q -> Qmin q 100 = q.
Proof.
  intros H. unfold Qmin, GenericMinMax.gmin.
  destruct (q ?= 100)%Q eqn:E; try reflexivity.
  apply Qgt_alt in E. exfalso. apply (Qlt_irrefl 100).
  apply Qlt_le_trans with q; [exact E|].
  apply Qle_trans with 90%Q; [exact H | discriminate].
Qed.

Lemma compute_risk_score_raw_sum (tx : Transaction) :
  compute_risk_score tx = Rules.raw_sum tx.
Proof.
  unfold compute_risk_score. rewrite accumulated_score_raw_sum.
  apply Qmin_100_id, raw_sum_bounds.
Qed.

Example scenario_1_scores_90 :
  compute_risk_score demo_tx = 90%Q
  /\ score_to_level (compute_risk_score demo_tx) = "high".
Proof. split; reflexivity. Qed.

Example scenario_2_scores_0 :
  compute_risk_score scenario_2 = 0%Q
  /\ score_to_level (compute_risk_score scenario_2) = "low".
Proof. split; reflexivity. Qed.

Example scenario_3_scores_30 :
  compute_risk_score scenario_3 = 30%Q
  /\ score_to_level (compute_risk_score scenario_3) = "low".
Proof. split; reflexivity. Qed.

Example scenario_4_scores_45 :
  compute_risk_score scenario_4 = 45%Q
  /\ score_to_level (compute_risk_score scenario_4) = "medium".
Proof. split; reflexivity. Qed.

Example infinite_amount_scores_top_bracket :
  Rules.amount_points Py.PosInf = 50%Q /\ Rules.amount_points Py.NaN = 0%Q.
Proof. split; reflexivity. Qed.

(** C1. The risk score of every transaction is the sum of the five rule
    contributions (one amount bracket; country, channel and merchant
    category compared case-insensitively against their lists; the
    missing-identity rule), clamped to at most 100; and a blank (absent,
    null or empty) country, channel or merchant category contributes
    nothing. *)
Theorem compute_risk_score_sum_of_rules (tx : Transaction) :
  compute_risk_score tx
  = Qmin (Rules.amount_points (amount tx) + Rules.country_points tx
          + Rules.channel_points tx + Rules.category_points tx
          + Rules.identity_points tx) 100
  /\ (Rules.blank (country tx) = true -> Rules.country_points tx = 0%Q)
  /\ (Rules.blank (channel tx) = true -> Rules.channel_points tx = 0%Q)
  /\ (Rules.blank (merchant_category tx) = true -> Rules.category_points tx = 0%Q).
Proof.
  split.
  - unfold compute_risk_score. now rewrite accumulated_score_raw_sum.
  - unfold Rules.country_points, Rules.channel_points, Rules.category_points.
    repeat split; intros H.
    + destruct (country tx) as [s|]; [|reflexivity].
      apply String.eqb_eq in H. now subst.
    + destruct (channel tx) as [s|]; [|reflexivity].
      apply String.eqb_eq in H. now subst.
    + destruct (merchant_category tx) as [s|]; [|reflexivity].
      apply String.eqb_eq in H. now subst.
Qed.

Lemma compute_risk_score_sum_of_rules_witness :
  Rules.blank (country blank_tx) = true
  /\ Rules.country_points blank_tx = 0%Q
  /\ compute_risk_score blank_tx = 30%Q.
Proof.
  destruct (compute_risk_score_sum_of_rules blank_tx) as (Hs & Hc & _).
  split; [reflexivity|]. split; [apply Hc; reflexivity | rewrite Hs; reflexivity].
Defined.

(** C3. The level classifier is total and splits the scores into three
    disjoint ranges that leave no gap: below 40 is "low", from 40 up to
    but not including 70 is "medium", 70 and above (so all of [70,100])
    is "high". *)
Theorem score_to_level_partition (score : Q) :
  score_to_level score ∈ ["low"; "medium"; "high"]
  /\ (score_to_level score = "low" <-> (score < 40)%Q)
  /\ (score_to_level score = "medium" <-> (40 <= score /\ score < 70)%Q)
  /\ (score_to_level score = "high" <-> (70 <= score)%Q).
Proof.
  unfold score_to_level.
  destruct (Qle_bool 70 score) eqn:E70; destruct (Qle_bool 40 score) eqn:E40;
    try (apply Qle_bool_iff in E70); try (apply Qle_bool_iff in E40);
    try (apply not_true_iff_false in E70; rewrite Qle_bool_iff in E70;
         apply Qnot_le_lt in E70);
    try (apply not_true_iff_false in E40; rewrite Qle_bool_iff in E40;
         apply Qnot_le_lt in E40);
    (split; [set_solver|]);
    repeat split; intros; try discriminate; try lra; try reflexivity.
Qed.

(** C7. A valid transaction (amount >= 0) scores between 0 and 100. *)
Theorem compute_risk_score_range (tx : Transaction) :
  amount_ok (amount tx) = true ->
  (0 <= compute_risk_score tx <= 100)%Q.
Proof.
  intros _. rewrite compute_risk_score_raw_sum.
  pose proof (raw_sum_bounds tx) as [H0 H90]. split; [exact H0|].
  apply Qle_trans with 90%Q; [exact H90 | discriminate].
Qed.

(** C10. The raw sum of the contributions is at most 90, so the score is
    at most 90 and a multiple of 5, and the clamp changes nothing: the
    score returned is the accumulated one. *)
Theorem compute_risk_score_clamp_is_idle (tx : Transaction) :
  (Rules.raw_sum tx <= 90)%Q
  /\ accumulated_score tx = Rules.raw_sum tx
  /\ (compute_risk_score tx <= 90)%Q
  /\ (exists k : Z, compute_risk_score tx = inject_Z (5 * k))
  /\ compute_risk_score tx = accumulated_score tx.
Proof.
  pose proof (raw_sum_bounds tx) as [_ H90].
  repeat split.
  - exact H90.
  - apply accumulated_score_raw_sum.
  - now rewrite compute_risk_score_raw_sum.
  - rewrite compute_risk_score_raw_sum. apply raw_sum_multiple_of_5.
  - rewrite compute_risk_score_raw_sum. symmetry. apply accumulated_score_raw_sum.
Qed.

(** ** The store *)

Lemma collection_insert_one (name name' : string) (d : doc) (st : Store) :
  collection name' (insert_one name d st) =
  if decide (name = name')
  then collection name st ++ [ <[ "_id" := VId (next_id st) ]> d ]
  else collection name' st.
Proof.
  unfold collection, insert_one. cbn. rewrite lookup_insert.
  case_decide; subst; reflexivity.
Qed.

Lemma collection_used_up (name : string) (st : Store) :
  collection name (used_up st) = collection name st.
Proof. reflexivity. Qed.

Lemma written_app (name : string) (st st' : Store) (l : list doc) :
  collection name st' = collection name st ++ l -> written name st st' = l.
Proof. intros H. unfold written. rewrite H. apply drop_app_length. Qed.

Lemma written_same (name : string) (st st' : Store) :
  collection name st' = collection name st -> written name st st' = [].
Proof. intros H. apply written_app. now rewrite app_nil_r. Qed.

Lemma alerts_after_transaction (d : doc) (st : Store) :
  collection "alert" (insert_one "transaction" d st) = collection "alert" st.
Proof. rewrite collection_insert_one. case_decide; [discriminate | reflexivity]. Qed.

Lemma transactions_after_alert (d : doc) (st : Store) :
  collection "transaction" (insert_one "alert" d st) = collection "transaction" st.
Proof. rewrite collection_insert_one. case_decide; [discriminate | reflexivity]. Qed.

(** ** One run of [create_transaction] *)

Section Create.

Variable str : value -> string.

Lemma alert_fields_valid (payload : Transaction) (rid : string) (level : string) :
  Alert.valid (alert_fields str payload rid (compute_risk_score payload) level) = true.
Proof.
  unfold Alert.valid. cbn.
  rewrite compute_risk_score_raw_sum.
  pose proof (raw_sum_bounds payload) as [H0 H90].
  apply andb_true_iff. split; apply Qle_bool_iff; [exact H0|].
  apply Qle_trans with 90%Q; [exact H90 | discriminate].
Qed.

(** The handler, run by run: the first write fails; or the level is not
    "high" and the transaction alone is written; or the level is "high"
    and the alert write fails or succeeds. *)
Lemma create_transaction_run (payload : Transaction) (now : datetime) (st : Store) :
  let score := compute_risk_score payload in
  let level := score_to_level score in
  let rid := str (VId (next_id st)) in
  let st1 := insert_one "transaction" (scored_data payload now score level) st in
  let resp := {| id := rid; response_risk_score := score;
                 response_risk_level := level |} in
  create_transaction str payload now st =
    match faults st with
    | true :: _ => (Err StorageError, used_up st)
    | _ =>
        if String.eqb level "high" then
          match faults st1 with
          | true :: _ => (Err StorageError, used_up st1)
          | _ =>
              (Ok resp,
               insert_one "alert"
                 (Alert.model_dump (alert_fields str payload rid score level)) st1)
          end
        else (Ok resp, st1)
    end.
Proof.
  intros score level rid st1 resp.
  unfold create_transaction, bind, create_document.
  fold score level.
  destruct (faults st) as [|[|] fs] eqn:Hf; try reflexivity;
    fold rid; fold st1;
    (destruct (String.eqb level "high") eqn:Hl; [|reflexivity]);
    unfold new_alert; subst score; rewrite alert_fields_valid; unfold ret;
    destruct (faults st1) as [|[|] fs1]; reflexivity.
Qed.

End Create.

Section CreateFacts.

Variable str : value -> string.

Lemma score_to_level_high (score : Q) :
  score_to_level score = "high" <-> (70 <= score)%Q.
Proof.
  unfold score_to_level. rewrite <- Qle_bool_iff.
  destruct (Qle_bool 70 score); [tauto|].
  destruct (Qle_bool 40 score); split; discriminate.
Qed.

(** The alerts after a run are those before it, followed by none, or by
    the one alert of a "high" transaction whose two writes went through. *)
Lemma create_transaction_alerts (payload : Transaction) (now : datetime) (st : Store) :
  let score := compute_risk_score payload in
  let level := score_to_level score in
  let out := create_transaction str payload now st in
  (collection "alert" (snd out) = collection "alert" st
   /\ (is_ok (fst out) = true -> level <> "high"))
  \/ (collection "alert" (snd out) =
        collection "alert" st ++
        [ <[ "_id" := VId (S (next_id st)) ]>
            (Alert.model_dump
               (alert_fields str payload (str (VId (next_id st))) score level)) ]
      /\ level = "high" /\ is_ok (fst out) = true).
Proof.
  intros score level out. subst out.
  rewrite create_transaction_run. fold score level.
  set (st1 := insert_one "transaction" (scored_data payload now score level) st).
  assert (H1 : collection "alert" st1 = collection "alert" st)
    by apply alerts_after_transaction.
  assert (Hn : next_id st1 = S (next_id st)) by reflexivity.
  destruct (faults st) as [|[|] fs]; cbn [fst snd].
  2: { left. split; [reflexivity | discriminate]. }
  all: destruct (String.eqb_spec level "high") as [Hl|Hl].
  2, 4: left; split; [exact H1 | intros _; exact Hl].
  all: destruct (faults st1) as [|[|] fs1]; cbn [fst snd].
  2, 5: left; split; [exact H1 | discriminate].
  all: right; split; [|split; [exact Hl | reflexivity]].
  all: rewrite collection_insert_one, H1; reflexivity.
Qed.

End CreateFacts.

(** C2 (as amended). In every create call an alert is persisted only if
    the level of the computed score is "high" (a "medium" level never
    persists one), and at most one is; the level is "high" exactly when
    the score is at least 70; and in a call that completes, that is
    without a storage failure, an alert is persisted if and only if the
    level is "high". *)
Theorem create_transaction_alert_iff_high
    (str : value -> string) (payload : Transaction) (now : datetime) (st : Store) :
  let out := create_transaction str payload now st in
  let level := score_to_level (compute_risk_score payload) in
  let new := written "alert" st (snd out) in
  collection "alert" (snd out) = collection "alert" st ++ new
  /\ length new <= 1
  /\ (length new = 1 -> level = "high")
  /\ (level = "medium" -> new = [])
  /\ (level = "high" <-> (70 <= compute_risk_score payload)%Q)
  /\ (is_ok (fst out) = true -> (length new = 1 <-> level = "high")).
Proof.
  intros out level new.
  destruct (create_transaction_alerts str payload now st) as [[Hc Hok]|(Hc & Hl & Hok)];
    fold out level in Hc, Hok.
  - assert (Hn : new = []) by (apply written_same; exact Hc).
    rewrite Hn, app_nil_r. cbn [length].
    refine (conj Hc (conj _ (conj _ (conj _ (conj _ _))))).
    + lia.
    + discriminate.
    + reflexivity.
    + apply score_to_level_high.
    + intros H. split; [discriminate|]. intros Hh. destruct (Hok H Hh).
  - fold level in Hl.
    assert (Hn : new = [ <[ "_id" := VId (S (next_id st)) ]>
                          (Alert.model_dump
                             (alert_fields str payload (str (VId (next_id st)))
                                (compute_risk_score payload) level)) ])
      by (apply written_app; exact Hc).
    rewrite Hn. cbn [length].
    refine (conj Hc (conj _ (conj _ (conj _ (conj _ _))))).
    + lia.
    + intros _. exact Hl.
    + rewrite Hl. discriminate.
    + apply score_to_level_high.
    + intros _. split; [intros _; exact Hl | reflexivity].
Qed.

Lemma create_transaction_alert_iff_high_witness :
  length (written "alert" (empty_store [])
            (snd (create_transaction demo_str demo_tx 0%Z (empty_store [])))) = 1.
Proof.
  destruct (create_transaction_alert_iff_high demo_str demo_tx 0%Z (empty_store []))
    as (_ & _ & _ & _ & _ & H).
  apply H; reflexivity.
Defined.

(** C2, as first stated, fails when the store fails: a "high" transaction
    is written, the write of its alert fails, and no alert is persisted. *)
Lemma high_risk_alert_lost_on_store_failure :
  let out := create_transaction demo_str demo_tx 0%Z (empty_store [false; true]) in
  score_to_level (compute_risk_score demo_tx) = "high"
  /\ fst out = Err StorageError
  /\ length (collection "transaction" (snd out)) = 1
  /\ collection "alert" (snd out) = [].
Proof. vm_compute. repeat split. Qed.

(** ** Tags *)

Lemma kept_tags (mc ch co : option string) :
  omap (fun t => if Py.truthy_opt t then t else None) [mc; ch; co]
  = present mc ++ present ch ++ present co.
Proof.
  destruct mc as [a|], ch as [b|], co as [c|]; cbn; unfold Py.truthy;
    repeat match goal with
    | |- context [ String.eqb ?s "" ] => destruct (String.eqb s "")
    end; reflexivity.
Qed.

Lemma present_not_empty (o : option string) : "" ∉ present o.
Proof.
  destruct o as [s|]; cbn; [|apply not_elem_of_nil].
  destruct (String.eqb_spec s ""); [apply not_elem_of_nil|].
  rewrite elem_of_cons, elem_of_nil. intros [H|[]]. congruence.
Qed.

(** C6. The tags of every alert that a create call persists are the
    transaction's merchant category, channel and country, in that order,
    each left out when it is null or empty and otherwise kept as it is
    (duplicates included); no tag is empty, and a tag is a string, never
    null. *)
Theorem alert_tags_in_order
    (str : value -> string) (payload : Transaction) (now : datetime)
    (st : Store) (d : doc) :
  d ∈ written "alert" st (snd (create_transaction str payload now st)) ->
  let tags := present (merchant_category payload) ++ present (channel payload)
              ++ present (country payload) in
  d !! "tags" = Some (VList tags) /\ "" ∉ tags.
Proof.
  intros Hd tags.
  destruct (create_transaction_alerts str payload now st) as [[Hc _]|(Hc & _ & _)].
  - rewrite (written_same _ _ _ Hc) in Hd. now apply elem_of_nil in Hd.
  - rewrite (written_app _ _ _ _ Hc) in Hd. apply list_elem_of_singleton in Hd.
    subst d. split.
    + unfold tags. rewrite <- kept_tags. reflexivity.
    + unfold tags. rewrite !elem_of_app.
      pose proof (present_not_empty (merchant_category payload)).
      pose proof (present_not_empty (channel payload)).
      pose proof (present_not_empty (country payload)). tauto.
Qed.

Example repeated_tags_are_kept :
  (collection "alert" (snd (create_transaction demo_str repeated_tag_tx 0%Z (empty_store [])))
     !! 0) ≫= (.!! "tags") = Some (VList ["web"; "web"; "RU"]).
Proof. reflexivity. Qed.

Lemma alert_tags_in_order_witness :
  exists d : doc,
    d ∈ collection "alert" (snd (create_transaction demo_str demo_tx 0%Z (empty_store [])))
    /\ d !! "tags" = Some (VList ["Gambling"; "WEB"; "ru"]).
Proof.
  eexists. split; [vm_compute; apply list_elem_of_here|].
  apply (alert_tags_in_order demo_str demo_tx 0%Z (empty_store [])).
  vm_compute. apply list_elem_of_here.
Defined.

(** ** Alerts of the reachable stores *)

Lemma scored_data_fields (payload : Transaction) (now : datetime)
    (score : Q) (level : string) :
  let data := scored_data payload now score level in
  data !! "risk_score" = Some (VFloat (Py.Finite score))
  /\ data !! "risk_level" = Some (VStr level)
  /\ data !! "user_id" = Some (VStr (user_id payload))
  /\ data !! "is_fraud" = Some (opt_value VBool (is_fraud payload)).
Proof.
  unfold scored_data. cbv zeta.
  replace (model_dump payload !! "timestamp")
    with (Some (opt_value VTime (timestamp payload))) by reflexivity.
  destruct (negb _); repeat split; reflexivity.
Qed.

Section Invariant.

Variable str : value -> string.
Variable isoformat : datetime -> string.

Lemma alert_sound_ext (st st' : Store) (a : doc) :
  collection "transaction" st' = collection "transaction" st ->
  alert_sound str st a -> alert_sound str st' a.
Proof. unfold alert_sound. intros ->. exact (fun H => H). Qed.

Lemma store_inv_empty (fs : list bool) : store_inv str (empty_store fs).
Proof.
  repeat split.
  - intros i t H. discriminate H.
  - intros i j t t' H. discriminate H.
  - apply Forall_nil_2.
Qed.

Lemma store_inv_used_up (st : Store) : store_inv str st -> store_inv str (used_up st).
Proof. exact (fun H => H). Qed.

Lemma alert_sound_grow (d : doc) (st : Store) (a : doc) :
  transactions_indexed st ->
  alert_sound str st a -> alert_sound str (insert_one "transaction" d st) a.
Proof.
  intros Hix (Hl & Hs & t & n & Hin & Hid & Huniq & Hrest).
  split; [exact Hl|]. split; [exact Hs|].
  exists t, n. rewrite collection_insert_one. cbn.
  split; [apply elem_of_app; now left|]. split; [exact Hid|].
  split; [|exact Hrest].
  intros t' Hin' Hid'. apply elem_of_app in Hin' as [Hin'|Hin'].
  - now apply Huniq.
  - apply list_elem_of_singleton in Hin'. subst t'.
    rewrite lookup_insert_eq in Hid'. injection Hid' as <-.
    apply list_elem_of_lookup in Hin as [i Hi].
    destruct (Hix i t Hi) as (m & Hm & Hlt). rewrite Hid in Hm.
    injection Hm as <-. lia.
Qed.

Lemma store_inv_insert_transaction (d : doc) (st : Store) :
  store_inv str st -> store_inv str (insert_one "transaction" d st).
Proof.
  intros (Hix & Hdis & Hal). split; [|split].
  - intros i t. rewrite collection_insert_one. cbn.
    intros H. apply lookup_app_Some in H as [H|[_ H]].
    + destruct (Hix i t H) as (n & Hn & Hlt). exists n. split; [exact Hn | lia].
    + apply list_lookup_singleton_Some in H as [_ <-].
      exists (next_id st). split; [apply lookup_insert_eq | lia].
  - intros i j t t'. rewrite collection_insert_one. cbn.
    intros Hi Hj Heq.
    apply lookup_app_Some in Hi as [Hi|[Hge Hi]];
      apply lookup_app_Some in Hj as [Hj|[Hge' Hj]].
    + exact (Hdis i j t t' Hi Hj Heq).
    + apply list_lookup_singleton_Some in Hj as [_ <-].
      rewrite lookup_insert_eq in Heq.
      destruct (Hix i t Hi) as (n & Hn & Hlt). rewrite Hn in Heq.
      injection Heq as ->. lia.
    + apply list_lookup_singleton_Some in Hi as [_ <-].
      rewrite lookup_insert_eq in Heq.
      destruct (Hix j t' Hj) as (n & Hn & Hlt). rewrite Hn in Heq.
      injection Heq as <-. lia.
    + apply list_lookup_singleton_Some in Hi as [Hi _].
      apply list_lookup_singleton_Some in Hj as [Hj _]. lia.
  - rewrite alerts_after_transaction.
    eapply Forall_impl; [exact Hal|]. intros a. now apply alert_sound_grow.
Qed.

Lemma store_inv_insert_alert (a : doc) (st : Store) :
  store_inv str st ->
  alert_sound str st (<[ "_id" := VId (next_id st) ]> a) ->
  store_inv str (insert_one "alert" a st).
Proof.
  intros (Hix & Hdis & Hal) Ha. split; [|split].
  - intros i t. rewrite transactions_after_alert. intros H.
    destruct (Hix i t H) as (n & Hn & Hlt). exists n. split; [exact Hn | cbn; lia].
  - intros i j t t'. rewrite transactions_after_alert. apply Hdis.
  - rewrite collection_insert_one. cbn. apply Forall_app. split.
    + eapply Forall_impl; [exact Hal|]. intros x.
      apply alert_sound_ext, transactions_after_alert.
    + apply Forall_singleton.
      eapply alert_sound_ext; [apply transactions_after_alert | exact Ha].
Qed.

(** The alert of a "high" transaction, against the store that holds the
    transaction just written. *)
Lemma fresh_alert_sound (payload : Transaction) (now : datetime) (st : Store) :
  let score := compute_risk_score payload in
  let level := score_to_level score in
  let st1 := insert_one "transaction" (scored_data payload now score level) st in
  transactions_indexed st ->
  level = "high" ->
  alert_sound str st1
    (<[ "_id" := VId (next_id st1) ]>
       (Alert.model_dump
          (alert_fields str payload (str (VId (next_id st))) score level))).
Proof.
  intros score level st1 Hix Hl.
  destruct (scored_data_fields payload now score level) as (Hs & Hlv & Hu & _).
  split; [rewrite <- Hl; reflexivity|].
  split; [exists score; split; [reflexivity | now apply score_to_level_high]|].
  exists (<[ "_id" := VId (next_id st) ]> (scored_data payload now score level)), (next_id st).
  split; [|split; [|split; [|split; [|split; [|split]]]]].
  - unfold st1. rewrite collection_insert_one. cbn. apply elem_of_app. right.
    apply list_elem_of_here.
  - apply lookup_insert_eq.
  - intros t'. unfold st1. rewrite collection_insert_one. cbn.
    intros Hin Hid. apply elem_of_app in Hin as [Hin|Hin].
    + apply list_elem_of_lookup in Hin as [i Hi].
      destruct (Hix i t' Hi) as (m & Hm & Hlt). rewrite Hid in Hm.
      injection Hm as <-. lia.
    + now apply list_elem_of_singleton in Hin.
  - reflexivity.
  - rewrite lookup_insert_ne by discriminate. rewrite Hs. reflexivity.
  - rewrite lookup_insert_ne by discriminate. rewrite Hlv. reflexivity.
  - rewrite lookup_insert_ne by discriminate. rewrite Hu. reflexivity.
Qed.

Lemma store_inv_create (payload : Transaction) (now : datetime) (st : Store) :
  store_inv str st -> store_inv str (snd (create_transaction str payload now st)).
Proof.
  intros Hinv. rewrite create_transaction_run.
  set (score := compute_risk_score payload).
  set (level := score_to_level score).
  set (st1 := insert_one "transaction" (scored_data payload now score level) st).
  assert (H1 : store_inv str st1) by now apply store_inv_insert_transaction.
  assert (Hfresh : level = "high" ->
            store_inv str
              (insert_one "alert"
                 (Alert.model_dump
                    (alert_fields str payload (str (VId (next_id st))) score level)) st1)).
  { intros Hl. apply store_inv_insert_alert; [exact H1|].
    apply fresh_alert_sound; [apply Hinv | exact Hl]. }
  destruct (faults st) as [|[|] fs]; cbn [snd];
    try exact Hinv;
    (destruct (String.eqb_spec level "high") as [Hl|Hl]; [|exact H1]);
    destruct (faults st1) as [|[|] fs1]; cbn [snd];
    auto using store_inv_used_up.
Qed.

Lemma store_inv_step (st st' : Store) :
  store_inv str st -> step str isoformat st st' -> store_inv str st'.
Proof.
  intros Hinv Hstep. destruct Hstep as [payload now st|limit st|limit st].
  - now apply store_inv_create.
  - unfold list_transactions, bind, get_documents.
    destruct (faults st) as [|[|] fs]; exact Hinv.
  - unfold list_alerts, bind, get_documents.
    destruct (faults st) as [|[|] fs]; exact Hinv.
Qed.

Lemma store_inv_reachable (st : Store) :
  reachable str isoformat st -> store_inv str st.
Proof.
  induction 1 as [fs|st st' _ IH Hstep].
  - apply store_inv_empty.
  - exact (store_inv_step st st' IH Hstep).
Qed.

End Invariant.

(** C9. In every store the service can reach, each alert has level
    "high" and a score of at least 70, and refers to a stored
    transaction, the only one of that identity, that carries the same
    score, the same level and the same user. *)
Theorem persisted_alerts_sound
    (str : value -> string) (isoformat : datetime -> string)
    (st : Store) (a : doc) :
  reachable str isoformat st ->
  a ∈ collection "alert" st ->
  alert_sound str st a.
Proof.
  intros Hr Ha. destruct (store_inv_reachable str isoformat st Hr) as (_ & _ & Hal).
  rewrite Forall_forall in Hal. exact (Hal a Ha).
Qed.

Lemma persisted_alerts_sound_witness :
  exists a : doc,
    a ∈ collection "alert" demo_store /\ alert_sound demo_str demo_store a.
Proof.
  eexists. split; [vm_compute; apply list_elem_of_here|].
  apply (persisted_alerts_sound demo_str demo_iso).
  - unfold demo_store. eapply reachable_step; [apply (reachable_empty _ _ [])|].
    apply step_create.
  - vm_compute. apply list_elem_of_here.
Defined.

(** ** Validation *)

Section Validation.

Variable str : value -> string.

Lemma create_transaction_not_refused (payload : Transaction) (now : datetime) (st : Store) :
  fst (create_transaction str payload now st) <> Err ValidationError.
Proof.
  rewrite create_transaction_run.
  destruct (faults st) as [|[|] fs]; cbn [fst]; try discriminate;
    (destruct (String.eqb _ "high"); [|discriminate]);
    destruct (faults _) as [|[|] fs1]; discriminate.
Qed.

End Validation.

(** ** Caller-supplied labels *)

Section Labels.

Variable str : value -> string.

(** Validation passes the labels through and looks at nothing of them
    but the range of [risk_score]. *)
Lemma validate_labels (b : Body) :
  validate b =
  if score_admissible (body_risk_score b) then
    with_labels (optional None (body_risk_score b))
                (optional None (body_risk_level b))
                (optional (Some false) (body_is_fraud b))
    <$> validate (without_labels b)
  else None.
Proof.
  unfold validate. cbn.
  destruct (required (body_user_id b)) as [uid|];
    [|now destruct (score_admissible _)].
  destruct (required (body_amount b)) as [amt|];
    [|now destruct (score_admissible _)].
  destruct (defaulted "USD" (body_currency b)) as [cur|];
    [|now destruct (score_admissible _)].
  rewrite andb_true_r.
  destruct (body_risk_score b) as [| |x]; cbn;
    destruct (amount_ok amt); cbn; try reflexivity;
    destruct (Py.float_ge x 0 && Py.float_le x 100); reflexivity.
Qed.

Lemma without_labels_scores (b : Body) :
  without_labels (without_scores b) = without_labels b.
Proof. reflexivity. Qed.

Lemma compute_risk_score_labels rs rl fr (tx : Transaction) :
  compute_risk_score (with_labels rs rl fr tx) = compute_risk_score tx.
Proof. reflexivity. Qed.

(** The scored document does not depend on the payload's own
    [risk_score] and [risk_level]. *)
Lemma scored_data_labels rs rl fr (tx : Transaction) (now : datetime)
    (score : Q) (level : string) :
  scored_data (with_labels rs rl fr tx) now score level
  = scored_data (with_labels None None fr tx) now score level.
Proof.
  unfold scored_data. cbv zeta.
  replace (model_dump (with_labels rs rl fr tx) !! "timestamp")
    with (Some (opt_value VTime (timestamp tx))) by reflexivity.
  replace (model_dump (with_labels None None fr tx) !! "timestamp")
    with (Some (opt_value VTime (timestamp tx))) by reflexivity.
  destruct (negb _); reflexivity.
Qed.

Lemma create_transaction_scores rs rl fr (tx : Transaction) (now : datetime) (st : Store) :
  create_transaction str (with_labels rs rl fr tx) now st
  = create_transaction str (with_labels None None fr tx) now st.
Proof.
  rewrite !create_transaction_run, !compute_risk_score_labels.
  rewrite (scored_data_labels rs rl fr). reflexivity.
Qed.

Lemma create_transaction_response rs rl fr fr' (tx : Transaction) (now : datetime) (st : Store) :
  fst (create_transaction str (with_labels rs rl fr tx) now st)
  = fst (create_transaction str (with_labels None None fr' tx) now st).
Proof.
  rewrite !create_transaction_run, !compute_risk_score_labels.
  destruct (faults st) as [|[|] fs]; cbn [fst]; try reflexivity;
    (destruct (String.eqb _ "high"); [|reflexivity]);
    cbn [insert_one faults]; destruct (tail _) as [|[|] fs1]; reflexivity.
Qed.

(** A run appends at most the scored document to the transactions. *)
Lemma create_transaction_transactions (tx : Transaction) (now : datetime) (st : Store) :
  let score := compute_risk_score tx in
  let out := create_transaction str tx now st in
  written "transaction" st (snd out) = []
  \/ written "transaction" st (snd out)
     = [ <[ "_id" := VId (next_id st) ]>
           (scored_data tx now score (score_to_level score)) ].
Proof.
  intros score out. subst out. rewrite create_transaction_run. fold score.
  set (level := score_to_level score).
  set (data := scored_data tx now score level).
  set (st1 := insert_one "transaction" data st).
  assert (H1 : collection "transaction" st1
               = collection "transaction" st ++ [ <[ "_id" := VId (next_id st) ]> data ]).
  { unfold st1. rewrite collection_insert_one. reflexivity. }
  destruct (faults st) as [|[|] fs]; cbn [snd].
  2: { left. now apply written_same. }
  all: destruct (String.eqb level "high"); [|right; apply written_app; exact H1].
  all: destruct (faults st1) as [|[|] fs1]; cbn [snd]; right; apply written_app.
  all: first [ exact H1 | rewrite transactions_after_alert; exact H1 ].
Qed.

Lemma create_transaction_is_fraud (tx : Transaction) (now : datetime) (st : Store) (d : doc) :
  d ∈ written "transaction" st (snd (create_transaction str tx now st)) ->
  d !! "is_fraud" = Some (opt_value VBool (is_fraud tx)).
Proof.
  destruct (create_transaction_transactions tx now st) as [H|H]; rewrite H.
  - intros Hd. now apply elem_of_nil in Hd.
  - intros Hd. apply list_elem_of_singleton in Hd. subst d.
    rewrite lookup_insert_ne by discriminate.
    apply scored_data_fields.
Qed.

End Labels.

(** C5 (as amended). Among create requests whose caller-supplied
    risk_score, if any, is within [0,100]: two requests that differ only
    in the caller-supplied risk_score and risk_level have the same
    outcome, that is the same persisted documents and the same returned
    identity, score and level (or the same refusal); two requests that
    differ also in is_fraud still return the same identity, score and
    level; and the persisted transaction carries is_fraud as the caller
    gave it (false when the key is absent). *)
Theorem caller_scores_overwritten
    (str : value -> string) (b1 b2 : Body) (now : datetime) (st : Store) :
  score_admissible (body_risk_score b1) = true ->
  score_admissible (body_risk_score b2) = true ->
  (without_scores b1 = without_scores b2 ->
     post_transactions str b1 now st = post_transactions str b2 now st)
  /\ (without_labels b1 = without_labels b2 ->
      fst (post_transactions str b1 now st) = fst (post_transactions str b2 now st))
  /\ (forall d : doc,
        d ∈ written "transaction" st (snd (post_transactions str b1 now st)) ->
        d !! "is_fraud"
        = Some (opt_value VBool (optional (Some false) (body_is_fraud b1)))).
Proof.
  intros Ha1 Ha2. unfold post_transactions.
  rewrite (validate_labels b1), (validate_labels b2), Ha1, Ha2.
  split; [|split].
  - intros Heq.
    assert (Hl : without_labels b1 = without_labels b2)
      by (rewrite <- (without_labels_scores b1), Heq; reflexivity).
    assert (Hf : body_is_fraud b1 = body_is_fraud b2)
      by exact (f_equal body_is_fraud Heq).
    rewrite Hl, Hf. destruct (validate (without_labels b2)) as [tx|]; cbn; [|reflexivity].
    rewrite create_transaction_scores. symmetry. apply create_transaction_scores.
  - intros Hl. rewrite Hl.
    destruct (validate (without_labels b2)) as [tx|]; cbn; [|reflexivity].
    rewrite (create_transaction_response str _ _ _ None). symmetry.
    apply create_transaction_response.
  - intros d. destruct (validate (without_labels b1)) as [tx|]; cbn.
    + intros Hd. apply create_transaction_is_fraud in Hd. exact Hd.
    + rewrite written_same by reflexivity. intros Hd. now apply elem_of_nil in Hd.
Qed.

Lemma caller_scores_overwritten_witness :
  post_transactions demo_str demo_body_scored 0%Z (empty_store [])
  = post_transactions demo_str demo_body 0%Z (empty_store []).
Proof.
  destruct (caller_scores_overwritten demo_str demo_body_scored demo_body 0%Z
              (empty_store [])) as (H & _); reflexivity || (apply H; reflexivity).
Defined.

(** C5, as first stated, fails for is_fraud: two requests that differ
    only in the caller-supplied is_fraud persist transaction documents
    that differ in it; and a caller-supplied risk_score above 100 is not
    ignored, the request is refused. *)
Lemma caller_is_fraud_persisted :
  let st := empty_store [] in
  without_labels demo_body_fraud = without_labels demo_body
  /\ (collection "transaction" (snd (post_transactions demo_str demo_body_fraud 0%Z st))
        !! 0) ≫= (.!! "is_fraud") = Some (VBool true)
  /\ (collection "transaction" (snd (post_transactions demo_str demo_body 0%Z st))
        !! 0) ≫= (.!! "is_fraud") = Some (VBool false)
  /\ without_labels demo_body_score_150 = without_labels demo_body
  /\ fst (post_transactions demo_str demo_body_score_150 0%Z st) = Err ValidationError
  /\ is_ok (fst (post_transactions demo_str demo_body 0%Z st)) = true.
Proof. vm_compute. repeat split. Qed.

(** ** Listing *)

Lemma clamp_limit_table (limit : option Z) :
  clamp_limit limit = effective_limit limit.
Proof.
  unfold clamp_limit, or_50, effective_limit.
  destruct limit as [l|]; [|reflexivity].
  destruct (Z.eqb_spec l 0); [reflexivity|].
  destruct (Z.ltb_spec l 0); destruct (Z.ltb_spec 200 l); lia.
Qed.

Lemma get_documents_length (name : string) (limit : Z)
    (st st' : Store) (items : list doc) :
  get_documents name limit st = (Ok items, st') ->
  length items <= Z.to_nat limit.
Proof.
  unfold get_documents.
  destruct (faults st) as [|[|] fs]; intros H; inversion H; subst;
    rewrite length_take; lia.
Qed.

(** C4 (as amended). The effective limit of a list call is 50 when the
    requested one is absent or 0, 1 when it is negative, 200 when it is
    above 200 and the requested one otherwise, so it always lies in
    [1,200]; and a list call of transactions or of alerts never returns
    more items than the effective limit. *)
Theorem list_limit_clamped
    (str : value -> string) (isoformat : datetime -> string)
    (limit : option Z) (st : Store) :
  clamp_limit limit = effective_limit limit
  /\ (1 <= clamp_limit limit <= 200)%Z
  /\ (forall items st',
        list_transactions str isoformat limit st = (Ok items, st') ->
        length items <= Z.to_nat (clamp_limit limit))
  /\ (forall items st',
        list_alerts str isoformat limit st = (Ok items, st') ->
        length items <= Z.to_nat (clamp_limit limit)).
Proof.
  split; [apply clamp_limit_table|]. split; [unfold clamp_limit; lia|].
  split; intros items st'; unfold list_transactions, list_alerts, bind, ret;
    destruct (get_documents _ _ st) as [[docs|e] st1] eqn:Hg;
    intros H; inversion H; subst;
    rewrite length_map; exact (get_documents_length _ _ _ _ _ Hg).
Qed.

Lemma list_limit_clamped_witness :
  length (collection "transaction" demo_store) = 1
  /\ exists items st',
       list_transactions demo_str demo_iso (Some 1%Z) demo_store = (Ok items, st')
       /\ length items <= 1.
Proof.
  split; [reflexivity|].
  destruct (list_limit_clamped demo_str demo_iso (Some 1%Z) demo_store)
    as (_ & _ & H & _).
  eexists. eexists. split; [reflexivity|]. eapply H. reflexivity.
Defined.

(** C4, as first stated, fails for a negative requested limit: the
    effective limit is 1, not 50. *)
Lemma negative_limit_is_one :
  clamp_limit (Some (-5)%Z) = 1%Z
  /\ clamp_limit (Some 0%Z) = 50%Z
  /\ clamp_limit None = 50%Z.
Proof. repeat split. Qed.

Lemma compute_risk_score_range_witness :
  amount_ok (amount demo_tx) = true
  /\ (0 <= compute_risk_score demo_tx <= 100)%Q.
Proof.
  split; [reflexivity|]. apply (compute_risk_score_range demo_tx). reflexivity.
Defined.

(** ** Further properties of the scorer *)

Lemma caseless_eqb_trans_l (s t m : string) :
  Rules.caseless_eqb s t = true ->
  Rules.caseless_eqb s m = Rules.caseless_eqb t m.
Proof.
  intros H. apply caseless_lower in H. apply eq_true_iff_eq.
  rewrite !caseless_lower, H. reflexivity.
Qed.

Lemma one_of_caseless (o o' : option string) (names : list string) :
  caseless_opt o o' = true -> Rules.one_of o names = Rules.one_of o' names.
Proof.
  destruct o as [s|], o' as [t|]; cbn; try discriminate; [|reflexivity].
  intros H. induction names as [|m names IH]; [reflexivity|].
  cbn. now rewrite IH, (caseless_eqb_trans_l s t m H).
Qed.

(** The score reads six fields only, and reads the country, the channel
    and the merchant category up to letter case and the IP address and
    the device only as blank or not. *)
Theorem compute_risk_score_reads (tx tx' : Transaction) :
  amount tx = amount tx' ->
  caseless_opt (country tx) (country tx') = true ->
  caseless_opt (channel tx) (channel tx') = true ->
  caseless_opt (merchant_category tx) (merchant_category tx') = true ->
  Rules.blank (ip_address tx) = Rules.blank (ip_address tx') ->
  Rules.blank (device_id tx) = Rules.blank (device_id tx') ->
  compute_risk_score tx = compute_risk_score tx'.
Proof.
  intros Ha Hc Hch Hm Hi Hd. rewrite !compute_risk_score_raw_sum.
  unfold Rules.raw_sum, Rules.country_points, Rules.channel_points,
    Rules.category_points, Rules.identity_points.
  now rewrite Ha, Hi, Hd, (one_of_caseless _ _ _ Hc), (one_of_caseless _ _ _ Hch),
    (one_of_caseless _ _ _ Hm).
Qed.

Lemma compute_risk_score_reads_witness :
  compute_risk_score demo_tx
  = compute_risk_score
      {| transaction_id := Some "t-9"; user_id := "someone else";
         amount := Py.Finite 6000; currency := "EUR"; merchant := Some "shop";
         merchant_category := Some "GAMBLING"; country := Some "Ru";
         channel := Some "web"; timestamp := Some 3%Z;
         device_id := Some ""; ip_address := None;
         risk_score := Some (Py.Finite 1); risk_level := Some "low";
         is_fraud := Some true |}.
Proof. apply compute_risk_score_reads; reflexivity. Defined.

(** A transaction is "high" exactly when its amount is in the top bracket
    (>= 5000) and the other rules add at least 20 points: a risky country
    with one more signal, or a risky channel with a risky category. *)
Theorem high_needs_top_bracket (tx : Transaction) :
  score_to_level (compute_risk_score tx) = "high"
  <-> Py.float_ge (amount tx) 5000 = true /\ twenty_more tx = true.
Proof.
  rewrite compute_risk_score_raw_sum. unfold twenty_more. cbv zeta.
  by_rules tx; vm_compute; split; intros H; try discriminate H;
    try (destruct H; discriminate); repeat split.
Qed.

Lemma float_ge_mono (a b c : Q) :
  (a <= b)%Q -> Py.float_ge (Py.Finite a) c = true -> Py.float_ge (Py.Finite b) c = true.
Proof.
  cbn. rewrite !Qle_bool_iff. intros Hab Hc. now apply Qle_trans with a.
Qed.

Lemma amount_points_mono (a b : Q) :
  (a <= b)%Q ->
  (Rules.amount_points (Py.Finite a) <= Rules.amount_points (Py.Finite b))%Q.
Proof.
  intros Hab. unfold Rules.amount_points.
  pose proof (float_ge_mono a b 5000 Hab) as H5.
  pose proof (float_ge_mono a b 1000 Hab) as H1.
  pose proof (float_ge_mono a b 200 Hab) as H2.
  destruct (Py.float_ge (Py.Finite a) 5000);
    [rewrite H5 by reflexivity; discriminate|].
  destruct (Py.float_ge (Py.Finite a) 1000).
  { rewrite H1 by reflexivity. destruct (Py.float_ge (Py.Finite b) 5000); discriminate. }
  destruct (Py.float_ge (Py.Finite a) 200).
  { rewrite H2 by reflexivity.
    destruct (Py.float_ge (Py.Finite b) 5000), (Py.float_ge (Py.Finite b) 1000);
      discriminate. }
  destruct (Py.float_ge (Py.Finite b) 5000), (Py.float_ge (Py.Finite b) 1000),
    (Py.float_ge (Py.Finite b) 200); discriminate.
Qed.

(** Raising the amount of a transaction, all else equal, never lowers its
    score, and never takes it out of the "high" level. *)
Theorem compute_risk_score_monotone (tx : Transaction) (a b : Q) :
  (a <= b)%Q ->
  (compute_risk_score (with_amount (Py.Finite a) tx)
   <= compute_risk_score (with_amount (Py.Finite b) tx))%Q
  /\ (score_to_level (compute_risk_score (with_amount (Py.Finite a) tx)) = "high" ->
      score_to_level (compute_risk_score (with_amount (Py.Finite b) tx)) = "high").
Proof.
  intros Hab.
  assert (Hle : (compute_risk_score (with_amount (Py.Finite a) tx)
                 <= compute_risk_score (with_amount (Py.Finite b) tx))%Q).
  { rewrite !compute_risk_score_raw_sum. unfold Rules.raw_sum.
    change (Rules.country_points (with_amount (Py.Finite a) tx))
      with (Rules.country_points (with_amount (Py.Finite b) tx)).
    change (Rules.channel_points (with_amount (Py.Finite a) tx))
      with (Rules.channel_points (with_amount (Py.Finite b) tx)).
    change (Rules.category_points (with_amount (Py.Finite a) tx))
      with (Rules.category_points (with_amount (Py.Finite b) tx)).
    change (Rules.identity_points (with_amount (Py.Finite a) tx))
      with (Rules.identity_points (with_amount (Py.Finite b) tx)).
    pose proof (amount_points_mono a b Hab) as Hm. cbn [amount with_amount].
    lra. }
  split; [exact Hle|].
  rewrite !score_to_level_high. intros H. now apply Qle_trans with (1 := H).
Qed.

Lemma compute_risk_score_monotone_witness :
  (compute_risk_score (with_amount (Py.Finite 150) demo_tx)
   <= compute_risk_score (with_amount (Py.Finite 7000) demo_tx))%Q.
Proof.
  apply (compute_risk_score_monotone demo_tx 150 7000). discriminate.
Defined.

(** ** Further properties of a create call *)

Section CreateMore.

Variable str : value -> string.

(** What a call that returns a response has written. *)
Lemma create_transaction_ok (payload : Transaction) (now : datetime)
    (st st' : Store) (resp : CreateTransactionResponse) :
  create_transaction str payload now st = (Ok resp, st') ->
  let score := compute_risk_score payload in
  let level := score_to_level score in
  resp = {| id := str (VId (next_id st)); response_risk_score := score;
            response_risk_level := level |}
  /\ written "transaction" st st'
     = [ <[ "_id" := VId (next_id st) ]> (scored_data payload now score level) ]
  /\ written "alert" st st'
     = if String.eqb level "high"
       then [ <[ "_id" := VId (S (next_id st)) ]>
                (Alert.model_dump
                   (alert_fields str payload (str (VId (next_id st))) score level)) ]
       else [].
Proof.
  intros H score level. rewrite create_transaction_run in H. fold score level in H.
  set (data := scored_data payload now score level) in *.
  set (st1 := insert_one "transaction" data st) in *.
  assert (H1 : collection "transaction" st1
               = collection "transaction" st ++ [ <[ "_id" := VId (next_id st) ]> data ])
    by (unfold st1; rewrite collection_insert_one; reflexivity).
  assert (H2 : collection "alert" st1 = collection "alert" st)
    by apply alerts_after_transaction.
  destruct (faults st) as [|[|] fs]; try discriminate H.
  all: destruct (String.eqb level "high").
  all: try (destruct (faults st1) as [|[|] fs1]; try discriminate H).
  all: inversion H; subst resp st'; clear H.
  all: split; [reflexivity|]; split.
  all: try (apply written_app; rewrite ?transactions_after_alert; exact H1).
  all: try (apply written_same; exact H2).
  all: apply written_app; rewrite collection_insert_one, H2; reflexivity.
Qed.

Lemma scored_data_timestamp (payload : Transaction) (now : datetime)
    (score : Q) (level : string) :
  scored_data payload now score level !! "timestamp"
  = Some (VTime (default now (timestamp payload))).
Proof.
  destruct payload as [? ? ? ? ? ? ? ? ts ? ? ? ? ?].
  destruct ts; reflexivity.
Qed.

Lemma scored_data_other (payload : Transaction) (now : datetime)
    (score : Q) (level : string) (k : string) :
  k <> "timestamp" -> k <> "risk_score" -> k <> "risk_level" ->
  scored_data payload now score level !! k = model_dump payload !! k.
Proof.
  intros Ht Hs Hl. unfold scored_data. cbv zeta.
  rewrite !lookup_insert_ne by congruence.
  destruct (negb _); [|reflexivity].
  now rewrite lookup_insert_ne by congruence.
Qed.

Lemma written_transaction_is_scored (payload : Transaction) (now : datetime)
    (st : Store) (d : doc) :
  d ∈ written "transaction" st (snd (create_transaction str payload now st)) ->
  d = <[ "_id" := VId (next_id st) ]>
        (scored_data payload now (compute_risk_score payload)
           (score_to_level (compute_risk_score payload))).
Proof.
  destruct (create_transaction_transactions str payload now st) as [H|H]; rewrite H.
  - intros Hd. now apply elem_of_nil in Hd.
  - intros Hd. now apply list_elem_of_singleton in Hd.
Qed.

(** On a store with no failure pending among its next two operations,
    the handler returns a response. *)
Lemma create_transaction_reliable (payload : Transaction) (now : datetime) (st : Store) :
  true ∉ take 2 (faults st) ->
  is_ok (fst (create_transaction str payload now st)) = true.
Proof.
  intros Hf. rewrite create_transaction_run.
  set (st1 := insert_one "transaction" _ st).
  assert (H1 : faults st1 = tail (faults st)) by reflexivity.
  destruct (faults st) as [|[|] fs] eqn:E; cbn [tail] in H1.
  - destruct (String.eqb _ "high"); [rewrite H1|]; reflexivity.
  - exfalso. apply Hf. cbn. apply list_elem_of_here.
  - destruct (String.eqb _ "high"); [rewrite H1|reflexivity].
    destruct fs as [|[|] fs']; try reflexivity.
    exfalso. apply Hf. cbn. apply list_elem_of_further, list_elem_of_here.
Qed.

Lemma written_transaction_reliable (payload : Transaction) (now : datetime) (st : Store) :
  true ∉ take 2 (faults st) ->
  written "transaction" st (snd (create_transaction str payload now st))
  = [ <[ "_id" := VId (next_id st) ]>
        (scored_data payload now (compute_risk_score payload)
           (score_to_level (compute_risk_score payload))) ].
Proof.
  intros Hf. pose proof (create_transaction_reliable payload now st Hf) as Hok.
  destruct (create_transaction str payload now st) as [[resp|e] st'] eqn:E;
    [|discriminate Hok].
  apply create_transaction_ok in E. apply E.
Qed.

End CreateMore.

(** The transaction that a create call persists carries the caller's
    timestamp when one was given, and the time of the call otherwise. *)
Theorem persisted_timestamp_defaults_to_now
    (str : value -> string) (payload : Transaction) (now : datetime)
    (st : Store) (d : doc) :
  d ∈ written "transaction" st (snd (create_transaction str payload now st)) ->
  d !! "timestamp"
  = Some (VTime (match timestamp payload with Some t => t | None => now end)).
Proof.
  intros Hd. apply written_transaction_is_scored in Hd. subst d.
  rewrite lookup_insert_ne by discriminate.
  rewrite scored_data_timestamp. now destruct (timestamp payload).
Qed.

Lemma persisted_timestamp_defaults_to_now_witness :
  (<[ "_id" := VId 0 ]>
     (scored_data demo_tx 7%Z (compute_risk_score demo_tx)
        (score_to_level (compute_risk_score demo_tx)))) !! "timestamp"
  = Some (VTime 7%Z)
  /\ (<[ "_id" := VId 0 ]>
       (scored_data repeated_tag_tx 7%Z (compute_risk_score repeated_tag_tx)
          (score_to_level (compute_risk_score repeated_tag_tx)))) !! "timestamp"
     = Some (VTime 5%Z).
Proof.
  split.
  - apply (persisted_timestamp_defaults_to_now demo_str demo_tx 7%Z (empty_store [])).
    rewrite written_transaction_reliable by apply not_elem_of_nil.
    apply list_elem_of_here.
  - apply (persisted_timestamp_defaults_to_now demo_str repeated_tag_tx 7%Z (empty_store [])).
    rewrite written_transaction_reliable by apply not_elem_of_nil.
    apply list_elem_of_here.
Defined.

(** Apart from the identity, the timestamp, the score and the level, the
    persisted transaction holds every field of the payload as the payload
    dumps it: nothing else is changed, added or dropped. *)
Theorem persisted_fields_are_those_of_the_payload
    (str : value -> string) (payload : Transaction) (now : datetime)
    (st : Store) (d : doc) (k : string) :
  d ∈ written "transaction" st (snd (create_transaction str payload now st)) ->
  k ∉ written_keys ->
  d !! k = model_dump payload !! k.
Proof.
  intros Hd Hk. apply written_transaction_is_scored in Hd. subst d.
  unfold written_keys in Hk. rewrite !elem_of_cons, elem_of_nil in Hk.
  rewrite lookup_insert_ne by (intros <-; tauto).
  apply scored_data_other; intros ->; tauto.
Qed.

Lemma persisted_fields_are_those_of_the_payload_witness :
  (<[ "_id" := VId 0 ]>
     (scored_data demo_tx 7%Z (compute_risk_score demo_tx)
        (score_to_level (compute_risk_score demo_tx)))) !! "amount"
  = model_dump demo_tx !! "amount".
Proof.
  apply (persisted_fields_are_those_of_the_payload demo_str demo_tx 7%Z (empty_store [])).
  - rewrite written_transaction_reliable by apply not_elem_of_nil.
    apply list_elem_of_here.
  - unfold written_keys. rewrite !elem_of_cons, elem_of_nil.
    intros H. repeat destruct H as [H|H]; discriminate || exact H.
Defined.

(** A create call that returns a response has persisted exactly one
    transaction; the identity it returns is the text of that document's
    identity, the score and level it returns are the ones in the
    document and agree with each other, and an alert written by the call
    refers to the returned identity. *)
Theorem response_matches_persisted
    (str : value -> string) (payload : Transaction) (now : datetime)
    (st st' : Store) (resp : CreateTransactionResponse) :
  create_transaction str payload now st = (Ok resp, st') ->
  response_risk_score resp = compute_risk_score payload
  /\ response_risk_level resp = score_to_level (response_risk_score resp)
  /\ (exists (d : doc) (n : nat),
        written "transaction" st st' = [d]
        /\ d !! "_id" = Some (VId n)
        /\ id resp = str (VId n)
        /\ d !! "risk_score" = Some (VFloat (Py.Finite (response_risk_score resp)))
        /\ d !! "risk_level" = Some (VStr (response_risk_level resp)))
  /\ (forall a : doc, a ∈ written "alert" st st' ->
        a !! "transaction_ref" = Some (VStr (id resp))).
Proof.
  intros H. apply create_transaction_ok in H. cbv zeta in H.
  destruct H as (-> & Ht & Ha). cbn [id response_risk_score response_risk_level].
  split; [reflexivity|]. split; [reflexivity|]. split.
  - eexists. exists (next_id st). split; [exact Ht|].
    destruct (scored_data_fields payload now (compute_risk_score payload)
                (score_to_level (compute_risk_score payload))) as (Hs & Hl & _).
    split; [apply lookup_insert_eq|]. split; [reflexivity|].
    rewrite !lookup_insert_ne by discriminate. split; assumption.
  - intros a. rewrite Ha. destruct (String.eqb _ "high").
    + intros Hin. apply list_elem_of_singleton in Hin. subst a. reflexivity.
    + intros Hin. now apply elem_of_nil in Hin.
Qed.

Lemma response_matches_persisted_witness :
  exists resp st',
    create_transaction demo_str demo_tx 0%Z (empty_store []) = (Ok resp, st')
    /\ response_risk_level resp = score_to_level (response_risk_score resp).
Proof.
  eexists. eexists. split; [reflexivity|].
  eapply (response_matches_persisted demo_str demo_tx 0%Z (empty_store [])).
  reflexivity.
Defined.

(** The handler of a create call fails in one way only, a failure of the
    store: the alert it builds always satisfies the Alert schema, and it
    raises no validation error of its own.  When none of the next two
    store operations fails, it returns a response. *)
Theorem create_transaction_fails_on_storage_only
    (str : value -> string) (payload : Transaction) (now : datetime) (st : Store) :
  let out := create_transaction str payload now st in
  (is_ok (fst out) = true \/ fst out = Err StorageError)
  /\ (forall rid level,
        Alert.valid (alert_fields str payload rid (compute_risk_score payload) level)
        = true)
  /\ (true ∉ take 2 (faults st) -> is_ok (fst out) = true).
Proof.
  intros out. subst out. split; [|split].
  - rewrite create_transaction_run.
    destruct (faults st) as [|[|] fs]; cbn [fst]; auto;
      (destruct (String.eqb _ "high"); [|auto]);
      destruct (faults _) as [|[|] fs1]; auto.
  - intros rid level. apply alert_fields_valid.
  - apply create_transaction_reliable.
Qed.

Lemma create_transaction_fails_on_storage_only_witness :
  is_ok (fst (create_transaction demo_str demo_tx 0%Z (empty_store [false; false; true])))
  = true.
Proof.
  apply (create_transaction_fails_on_storage_only demo_str demo_tx 0%Z
           (empty_store [false; false; true])).
  cbn. rewrite !elem_of_cons, elem_of_nil. intros [H|[H|H]]; discriminate || exact H.
Defined.

Lemma missing_optional_not_one_of (d : string) (f : field string) (names : list string) :
  missing f = true ->
  existsb (Rules.caseless_eqb d) names = false ->
  Rules.one_of (optional (Some d) f) names = false.
Proof. destruct f; cbn; try discriminate; auto. Qed.

Lemma validate_fields (b : Body) (payload : Transaction) :
  validate b = Some payload ->
  country payload = optional (Some "US") (body_country b)
  /\ channel payload = optional (Some "card") (body_channel b)
  /\ merchant_category payload = optional None (body_merchant_category b)
  /\ currency payload = match body_currency b with Given c => c | _ => "USD" end
  /\ is_fraud payload = optional (Some false) (body_is_fraud b).
Proof.
  unfold validate.
  destruct (required (body_user_id b)); [|discriminate].
  destruct (required (body_amount b)); [|discriminate].
  destruct (body_currency b); cbn; try discriminate;
    (destruct (_ && _); [|discriminate]);
    intros H; inversion H; subst; cbn; repeat split.
Qed.

(** A request that gives no country, no channel and no merchant category
    is scored with the schema's defaults ("US", "card"), which are no
    risk signals: whatever its amount, its score is at most 55, its
    level is never "high", and the call persists no alert. *)
Theorem request_without_signals_never_alerts
    (str : value -> string) (body : Body) (payload : Transaction)
    (now : datetime) (st : Store) :
  validate body = Some payload ->
  missing (body_country body) = true ->
  missing (body_channel body) = true ->
  missing (body_merchant_category body) = true ->
  (compute_risk_score payload <= 55)%Q
  /\ score_to_level (compute_risk_score payload) <> "high"
  /\ written "alert" st (snd (post_transactions str body now st)) = [].
Proof.
  intros Hv Hc Hch Hm.
  destruct (validate_fields body payload Hv) as (Ec & Ech & Em & _).
  assert (Hs : (compute_risk_score payload <= 55)%Q).
  { rewrite compute_risk_score_raw_sum.
    unfold Rules.raw_sum, Rules.country_points, Rules.channel_points,
      Rules.category_points, Rules.identity_points.
    rewrite Ec, Ech, Em.
    rewrite (missing_optional_not_one_of "US") by (exact Hc || reflexivity).
    rewrite (missing_optional_not_one_of "card") by (exact Hch || reflexivity).
    replace (Rules.one_of (optional None (body_merchant_category body)) _) with false
      by (destruct (body_merchant_category body); [reflexivity | reflexivity | discriminate]).
    unfold Rules.amount_points, Rules.points.
    destruct (Py.float_ge (amount payload) 5000), (Py.float_ge (amount payload) 1000),
      (Py.float_ge (amount payload) 200),
      (Rules.blank (ip_address payload) || Rules.blank (device_id payload));
      discriminate. }
  assert (Hl : score_to_level (compute_risk_score payload) <> "high").
  { rewrite score_to_level_high. intros H.
    assert (70 <= 55)%Q as Habs by (now apply Qle_trans with (1 := H)).
    now apply Habs. }
  split; [exact Hs|]. split; [exact Hl|].
  unfold post_transactions. rewrite Hv.
  destruct (create_transaction_alerts str payload now st) as [[H _]|(_ & H & _)].
  - now apply written_same.
  - contradiction.
Qed.

Lemma request_without_signals_never_alerts_witness :
  (compute_risk_score
     {| transaction_id := None; user_id := "u1"; amount := Py.PosInf;
        currency := "USD"; merchant := None; merchant_category := None;
        country := Some "US"; channel := Some "card"; timestamp := None;
        device_id := None; ip_address := None; risk_score := None;
        risk_level := None; is_fraud := Some false |} <= 55)%Q.
Proof.
  eapply (request_without_signals_never_alerts demo_str
            {| body_transaction_id := Absent; body_user_id := Given "u1";
               body_amount := Given Py.PosInf; body_currency := Absent;
               body_merchant := Absent; body_merchant_category := Absent;
               body_country := Absent; body_channel := Absent;
               body_timestamp := Absent; body_device_id := Absent;
               body_ip_address := Absent; body_risk_score := Absent;
               body_risk_level := Absent; body_is_fraud := Absent |}
            _ 0%Z (empty_store [])); reflexivity.
Defined.

(** ** Listing: what the items are *)

Section Listing.

Variable str : value -> string.
Variable isoformat : datetime -> string.

Lemma id_to_str_lookup (d : doc) (k : string) :
  id_to_str str d !! k
  = if decide (k = "_id") then (fun v => VStr (str v)) <$> d !! "_id" else d !! k.
Proof.
  unfold id_to_str. destruct (d !! "_id") as [v|] eqn:E; case_decide; subst;
    rewrite ?lookup_insert_eq, ?lookup_insert_ne by congruence;
    rewrite ?E; reflexivity.
Qed.

Lemma time_to_iso_lookup (key : string) (d : doc) (k : string) :
  time_to_iso isoformat key d !! k
  = if decide (k = key)
    then match d !! key with
         | Some (VTime t) => Some (VStr (isoformat t))
         | o => o
         end
    else d !! k.
Proof.
  unfold time_to_iso. destruct (d !! key) as [[| | | |t| |]|] eqn:E; case_decide; subst;
    rewrite ?lookup_insert_eq, ?lookup_insert_ne by congruence;
    rewrite ?E; reflexivity.
Qed.

Lemma convert_listed (key : string) (d : doc) :
  key <> "_id" ->
  listed str isoformat key d (time_to_iso isoformat key (id_to_str str d)).
Proof.
  intros Hkey. unfold listed. split; [|split].
  - rewrite time_to_iso_lookup.
    destruct (decide ("_id" = key)); [congruence|].
    rewrite id_to_str_lookup.
    destruct (decide ("_id" = "_id")); [reflexivity|congruence].
  - rewrite time_to_iso_lookup.
    destruct (decide (key = key)); [|congruence].
    rewrite id_to_str_lookup.
    destruct (decide (key = "_id")); [congruence|reflexivity].
  - intros k H1 H2. rewrite time_to_iso_lookup.
    destruct (decide (k = key)); [congruence|].
    rewrite id_to_str_lookup.
    destruct (decide (k = "_id")); [congruence|reflexivity].
Qed.

Lemma map_listed (key : string) (docs : list doc) :
  key <> "_id" ->
  Forall2 (listed str isoformat key) docs
    (map (fun it => time_to_iso isoformat key (id_to_str str it)) docs).
Proof.
  intros Hkey. induction docs as [|d docs IH]; cbn; constructor.
  - now apply convert_listed.
  - exact IH.
Qed.

Lemma list_transactions_result (limit : option Z) (st : Store) :
  list_transactions str isoformat limit st =
  match faults st with
  | true :: _ => (Err StorageError, used_up st)
  | _ =>
      (Ok (map (fun it => time_to_iso isoformat "timestamp" (id_to_str str it))
             (take (Z.to_nat (clamp_limit limit)) (collection "transaction" st))),
       used_up st)
  end.
Proof.
  unfold list_transactions, bind, get_documents, ret.
  destruct (faults st) as [|[|] fs]; reflexivity.
Qed.

Lemma list_alerts_result (limit : option Z) (st : Store) :
  list_alerts str isoformat limit st =
  match faults st with
  | true :: _ => (Err StorageError, used_up st)
  | _ =>
      (Ok (map (fun it => time_to_iso isoformat "created_at" (id_to_str str it))
             (take (Z.to_nat (clamp_limit limit)) (collection "alert" st))),
       used_up st)
  end.
Proof.
  unfold list_alerts, bind, get_documents, ret.
  destruct (faults st) as [|[|] fs]; reflexivity.
Qed.

(** A create call appends what it writes to the transactions. *)
Lemma create_transaction_appends (payload : Transaction) (now : datetime) (st : Store) :
  let st' := snd (create_transaction str payload now st) in
  collection "transaction" st'
  = collection "transaction" st ++ written "transaction" st st'.
Proof.
  cbv zeta. rewrite create_transaction_run.
  set (st1 := insert_one "transaction" _ st).
  assert (H1 : collection "transaction" st1
               = collection "transaction" st
                 ++ [ <[ "_id" := VId (next_id st) ]>
                        (scored_data payload now (compute_risk_score payload)
                           (score_to_level (compute_risk_score payload))) ])
    by (unfold st1; rewrite collection_insert_one; reflexivity).
  assert (Hw : forall s : Store,
            collection "transaction" s = collection "transaction" st1 ->
            collection "transaction" s
            = collection "transaction" st ++ written "transaction" st s).
  { intros s Hs. rewrite Hs, H1. f_equal. symmetry. apply written_app.
    now rewrite Hs. }
  destruct (faults st) as [|[|] fs]; cbn [snd].
  2: { rewrite written_same by reflexivity. now rewrite app_nil_r. }
  all: destruct (String.eqb _ "high"); [|now apply Hw].
  all: destruct (faults st1) as [|[|] fs1]; cbn [snd]; apply Hw;
       first [ reflexivity | apply transactions_after_alert ].
Qed.

End Listing.

(** The items of a list call are the first documents of the collection,
    as many as the effective limit allows, in the store's order, each
    with its identity turned into text and a datetime under "timestamp"
    (transactions) or "created_at" (alerts) turned into ISO text, and
    every other entry as stored; the only failure is that of the store. *)
Theorem list_items_are_the_stored_documents
    (str : value -> string) (isoformat : datetime -> string)
    (limit : option Z) (st : Store) :
  (fst (list_transactions str isoformat limit st) = Err StorageError
   \/ exists items,
        fst (list_transactions str isoformat limit st) = Ok items
        /\ Forall2 (listed str isoformat "timestamp")
             (take (Z.to_nat (clamp_limit limit)) (collection "transaction" st)) items)
  /\ (fst (list_alerts str isoformat limit st) = Err StorageError
      \/ exists items,
           fst (list_alerts str isoformat limit st) = Ok items
           /\ Forall2 (listed str isoformat "created_at")
                (take (Z.to_nat (clamp_limit limit)) (collection "alert" st)) items).
Proof.
  rewrite list_transactions_result, list_alerts_result.
  destruct (faults st) as [|[|] fs]; cbn [fst]; split; auto; right;
    eexists; (split; [reflexivity|]); apply map_listed; discriminate.
Qed.

(** A transaction that a create call has just persisted shows up in the
    next listing, as long as the collection held fewer documents than the
    effective limit: under the identity that the create call returned,
    with the score and level that it returned, and with its timestamp as
    ISO text. *)
Theorem created_transaction_is_listed
    (str : value -> string) (isoformat : datetime -> string)
    (payload : Transaction) (now : datetime) (limit : option Z)
    (st st1 st2 : Store) (resp : CreateTransactionResponse) (items : list doc) :
  create_transaction str payload now st = (Ok resp, st1) ->
  list_transactions str isoformat limit st1 = (Ok items, st2) ->
  length (collection "transaction" st) < Z.to_nat (clamp_limit limit) ->
  exists it : doc,
    it ∈ items
    /\ it !! "_id" = Some (VStr (id resp))
    /\ it !! "risk_score" = Some (VFloat (Py.Finite (response_risk_score resp)))
    /\ it !! "risk_level" = Some (VStr (response_risk_level resp))
    /\ it !! "user_id" = Some (VStr (user_id payload))
    /\ it !! "timestamp"
       = Some (VStr (isoformat (match timestamp payload with
                                | Some t => t
                                | None => now
                                end))).
Proof.
  intros Hc Hl Hlen.
  pose proof (create_transaction_appends str payload now st) as Happ.
  rewrite Hc in Happ. cbn [snd] in Happ.
  destruct (create_transaction_ok str payload now st st1 resp Hc) as (-> & Hw & _).
  rewrite Hw in Happ. cbn [id response_risk_score response_risk_level].
  set (score := compute_risk_score payload) in *.
  set (level := score_to_level score) in *.
  set (d := <[ "_id" := VId (next_id st) ]> (scored_data payload now score level)) in *.
  rewrite list_transactions_result in Hl.
  assert (Hitems : items
            = map (fun it => time_to_iso isoformat "timestamp" (id_to_str str it))
                (take (Z.to_nat (clamp_limit limit)) (collection "transaction" st1))).
  { destruct (faults st1) as [|[|] fs]; now inversion Hl. }
  rewrite Happ, take_ge in Hitems by (rewrite length_app; cbn; lia).
  exists (time_to_iso isoformat "timestamp" (id_to_str str d)).
  split.
  { rewrite Hitems, map_app. apply elem_of_app. right. apply list_elem_of_here. }
  destruct (convert_listed str isoformat "timestamp" d) as (Hid & Hts & Hrest);
    [discriminate|].
  destruct (scored_data_fields payload now score level) as (Hs & Hlv & Hu & _).
  rewrite Hid, Hts, !Hrest by discriminate.
  unfold d. rewrite lookup_insert_eq, !lookup_insert_ne by discriminate.
  rewrite Hs, Hlv, Hu, scored_data_timestamp.
  repeat split.
Qed.

Lemma created_transaction_is_listed_witness :
  exists it : doc,
    it ∈ map (fun it => time_to_iso demo_iso "timestamp" (id_to_str demo_str it))
           (take 50 (collection "transaction" demo_store))
    /\ it !! "risk_level" = Some (VStr "high").
Proof.
  destruct (created_transaction_is_listed demo_str demo_iso demo_tx 0%Z None
              (empty_store []) demo_store (used_up demo_store)
              {| id := demo_str (VId 0); response_risk_score := compute_risk_score demo_tx;
                 response_risk_level := score_to_level (compute_risk_score demo_tx) |}
              (map (fun it => time_to_iso demo_iso "timestamp" (id_to_str demo_str it))
                 (take 50 (collection "transaction" demo_store))))
    as (it & Hin & _ & _ & Hl & _).
  - reflexivity.
  - reflexivity.
  - apply Nat.ltb_lt. reflexivity.
  - exists it. split; [exact Hin | exact Hl].
Defined.

(** ** The diagnostic endpoint *)

(** The report of [GET /test] always has the same six keys and says the
    backend runs; its database_url and database_name say only whether
    the environment variables are set (non-empty), whatever the handle
    is; connection_status is "Connected" exactly when there is a handle;
    the database entry never keeps its initial "Not Available" text;
    and collections holds the first ten collection names at most, none
    when there is no handle or the listing raised. *)
Theorem test_database_report (db : option Db.t) (getenv : string -> option string) :
  let response := test_database db getenv in
  dom response
  = {[ "backend"; "database"; "database_url"; "database_name";
       "connection_status"; "collections" ]}
  /\ response !! "backend" = Some (VStr "✅ Running")
  /\ response !! "database_url"
     = Some (VStr (if Py.truthy_opt (getenv "DATABASE_URL")
                   then "✅ Set" else "❌ Not Set"))
  /\ response !! "database_name"
     = Some (VStr (if Py.truthy_opt (getenv "DATABASE_NAME")
                   then "✅ Set" else "❌ Not Set"))
  /\ response !! "connection_status"
     = Some (VStr (match db with
                   | Some _ => "Connected"
                   | None => "Not Connected"
                   end))
  /\ response !! "database" <> Some (VStr "❌ Not Available")
  /\ exists names : list string,
       response !! "collections" = Some (VList names)
       /\ length names <= 10
       /\ names = match db with
                  | Some d =>
                      match Db.list_collection_names d with
                      | inr all => take 10 all
                      | inl _ => []
                      end
                  | None => []
                  end.
Proof.
  cbv zeta. unfold test_database.
  destruct db as [[n [e|all]]|]; cbn [Db.name Db.list_collection_names];
    (split; [apply set_eq; intros k; rewrite !dom_insert_L, dom_empty_L; set_solver|]);
    repeat (split; [reflexivity|]);
    (split; [cbn; discriminate|]);
    eexists; (split; [reflexivity|]); (split; [|reflexivity]);
    first [ rewrite length_take; lia | cbn; lia ].
Qed.

(** ** What no call does *)

Section AppendOnly.

Variable str : value -> string.
Variable isoformat : datetime -> string.

Lemma insert_one_appends (name name' : string) (d : doc) (st : Store) :
  exists new : list doc,
    collection name' (insert_one name d st) = collection name' st ++ new
    /\ length new <= 1
    /\ (name' <> name -> new = []).
Proof.
  rewrite collection_insert_one. case_decide.
  - subst name'. eexists. split; [reflexivity|]. split; [cbn; lia | congruence].
  - exists []. split; [now rewrite app_nil_r|]. split; [cbn; lia | reflexivity].
Qed.

Lemma create_transaction_appends_to (payload : Transaction) (now : datetime)
    (st : Store) (name : string) :
  exists new : list doc,
    collection name (snd (create_transaction str payload now st))
    = collection name st ++ new
    /\ length new <= 1
    /\ (name <> "transaction" -> name <> "alert" -> new = []).
Proof.
  rewrite create_transaction_run.
  set (st1 := insert_one "transaction" _ st).
  assert (Hnone : exists new : list doc,
            collection name st = collection name st ++ new
            /\ length new <= 1
            /\ (name <> "transaction" -> name <> "alert" -> new = [])).
  { exists []. split; [now rewrite app_nil_r|]. split; [cbn; lia | reflexivity]. }
  assert (H1 : exists new : list doc,
            collection name st1 = collection name st ++ new
            /\ length new <= 1
            /\ (name <> "transaction" -> name <> "alert" -> new = [])).
  { destruct (insert_one_appends "transaction" name
                (scored_data payload now (compute_risk_score payload)
                   (score_to_level (compute_risk_score payload))) st)
      as (new & E & L & N).
    exists new. split; [exact E|]. split; [exact L|]. intros Ht _. now apply N. }
  assert (H2 : forall a : doc, exists new : list doc,
            collection name (insert_one "alert" a st1) = collection name st ++ new
            /\ length new <= 1
            /\ (name <> "transaction" -> name <> "alert" -> new = [])).
  { intros a. rewrite collection_insert_one. case_decide as Hn.
    - subst name. unfold st1. rewrite alerts_after_transaction. eexists.
      split; [reflexivity|]. split; [cbn; lia | congruence].
    - exact H1. }
  destruct (faults st) as [|[|] fs]; cbn [snd]; try exact Hnone;
    (destruct (String.eqb _ "high"); [|exact H1]);
    destruct (faults st1) as [|[|] fs1]; cbn [snd];
    first [ apply H2 | exact H1 ].
Qed.

End AppendOnly.

(** No call of an endpoint changes, moves or removes a stored document:
    after a call every collection is what it was, followed by at most one
    new document, and by none in a collection other than "transaction"
    and "alert"; the identity counter never goes back. *)
Theorem calls_are_append_only
    (str : value -> string) (isoformat : datetime -> string)
    (st st' : Store) (name : string) :
  step str isoformat st st' ->
  exists new : list doc,
    collection name st' = collection name st ++ new
    /\ length new <= 1
    /\ (name <> "transaction" -> name <> "alert" -> new = []).
Proof.
  intros Hstep. destruct Hstep as [payload now st|limit st|limit st].
  - apply create_transaction_appends_to.
  - rewrite list_transactions_result.
    exists []. split; [|split; [cbn; lia | reflexivity]].
    rewrite app_nil_r. destruct (faults st) as [|[|] fs]; reflexivity.
  - rewrite list_alerts_result.
    exists []. split; [|split; [cbn; lia | reflexivity]].
    rewrite app_nil_r. destruct (faults st) as [|[|] fs]; reflexivity.
Qed.

Lemma calls_are_append_only_witness :
  exists new : list doc,
    collection "alert" demo_store = collection "alert" (empty_store []) ++ new
    /\ length new <= 1
    /\ ("alert" <> "transaction" -> "alert" <> "alert" -> new = []).
Proof.
  apply (calls_are_append_only demo_str demo_iso (empty_store []) demo_store "alert").
  apply step_create.
Defined.

(** ** The create endpoint, from the JSON object *)

Section EndpointFacts.

Variable coerce_str : json -> option string.
Variable coerce_float : json -> option Py.float.
Variable coerce_datetime : json -> option datetime.
Variable coerce_bool : json -> option bool.
Variable str : value -> string.
















Lemma value_errors_nil {A} (coerce : json -> option A) (ok : A -> bool)
    (nullable must : bool) (v : json) :
  match coerce v with
  | Some a => if ok a then [] else [v]
  | None => [v]
  end = []
  <-> exists f, Given <$> coerce v = Some f
                /\ match f with
                   | Absent => must = false
                   | Null => nullable = true
                   | Given a => ok a = true
                   end.
Proof.
  destruct (coerce v) as [a|]; cbn.
  - destruct (ok a) eqn:E; split.
    + intros _. exists (Given a). now split.
    + reflexivity.
    + discriminate.
    + intros (f & Hf & Hc). injection Hf as <-. congruence.
  - split; [discriminate|]. intros (f & Hf & _). discriminate Hf.
Qed.

(** A key raises no error exactly when it can be read and what was read
    meets the key's declaration. *)
Lemma key_errors_nil {A} (coerce : json -> option A) (ok : A -> bool)
    (nullable must : bool) (raw : gmap string json) (k : string) :
  key_errors coerce ok nullable must raw k = []
  <-> exists f, read coerce (raw !! k) = Some f
                /\ match f with
                   | Absent => must = false
                   | Null => nullable = true
                   | Given a => ok a = true
                   end.
Proof.
  unfold key_errors, read. destruct (raw !! k) as [v|].
  - destruct v; try apply value_errors_nil.
    destruct nullable; split.
    + intros _. exists Null. now split.
    + reflexivity.
    + discriminate.
    + intros (f & Hf & Hc). injection Hf as <-. discriminate.
  - destruct must; split.
    + discriminate.
    + intros (f & Hf & Hc). injection Hf as <-. discriminate.
    + intros _. exists Absent. now split.
    + reflexivity.
Qed.

Lemma typed_all_reads (raw : gmap string json) (b : Body) :
  typed coerce_str coerce_float coerce_datetime coerce_bool raw = Some b ->
  read coerce_str (raw !! "transaction_id") = Some (body_transaction_id b)
  /\ read coerce_str (raw !! "user_id") = Some (body_user_id b)
  /\ read coerce_float (raw !! "amount") = Some (body_amount b)
  /\ read coerce_str (raw !! "currency") = Some (body_currency b)
  /\ read coerce_str (raw !! "merchant") = Some (body_merchant b)
  /\ read coerce_str (raw !! "merchant_category") = Some (body_merchant_category b)
  /\ read coerce_str (raw !! "country") = Some (body_country b)
  /\ read coerce_str (raw !! "channel") = Some (body_channel b)
  /\ read coerce_datetime (raw !! "timestamp") = Some (body_timestamp b)
  /\ read coerce_str (raw !! "device_id") = Some (body_device_id b)
  /\ read coerce_str (raw !! "ip_address") = Some (body_ip_address b)
  /\ read coerce_float (raw !! "risk_score") = Some (body_risk_score b)
  /\ read coerce_str (raw !! "risk_level") = Some (body_risk_level b)
  /\ read coerce_bool (raw !! "is_fraud") = Some (body_is_fraud b).
Proof.
  unfold typed.
  destruct (read coerce_str (raw !! "transaction_id")); [|discriminate].
  destruct (read coerce_str (raw !! "user_id")); [|discriminate].
  destruct (read coerce_float (raw !! "amount")); [|discriminate].
  destruct (read coerce_str (raw !! "currency")); [|discriminate].
  destruct (read coerce_str (raw !! "merchant")); [|discriminate].
  destruct (read coerce_str (raw !! "merchant_category")); [|discriminate].
  destruct (read coerce_str (raw !! "country")); [|discriminate].
  destruct (read coerce_str (raw !! "channel")); [|discriminate].
  destruct (read coerce_datetime (raw !! "timestamp")); [|discriminate].
  destruct (read coerce_str (raw !! "device_id")); [|discriminate].
  destruct (read coerce_str (raw !! "ip_address")); [|discriminate].
  destruct (read coerce_float (raw !! "risk_score")); [|discriminate].
  destruct (read coerce_str (raw !! "risk_level")); [|discriminate].
  destruct (read coerce_bool (raw !! "is_fraud")); [|discriminate].
  cbn. intros H. inversion H. repeat split.
Qed.

Lemma validate_accepts (b : Body) (payload : Transaction) :
  validate b = Some payload ->
  (exists uid, body_user_id b = Given uid)
  /\ (exists x, body_amount b = Given x /\ amount_ok x = true)
  /\ body_currency b <> Null
  /\ match body_risk_score b with
     | Given x => in_score_range x = true
     | Absent | Null => True
     end.
Proof.
  unfold validate.
  destruct (body_user_id b) as [| |uid]; cbn; try discriminate.
  destruct (body_amount b) as [| |x]; cbn; try discriminate.
  assert (Hc : defaulted "USD" (body_currency b) = None \/ body_currency b <> Null)
    by (destruct (body_currency b); cbn; auto; right; discriminate).
  destruct Hc as [Hc|Hc]; [rewrite Hc; discriminate|].
  destruct (defaulted "USD" (body_currency b)) as [cur|]; [|discriminate].
  destruct (amount_ok x) eqn:Ex; cbn; [|discriminate].
  assert (Hr : risk_score_ok (optional None (body_risk_score b)) = true ->
               match body_risk_score b with
               | Given r => in_score_range r = true
               | Absent | Null => True
               end)
    by (destruct (body_risk_score b); cbn; auto).
  destruct (risk_score_ok _); [|discriminate].
  intros _. split; [eauto|]. split; [eauto|]. split; [exact Hc | now apply Hr].
Qed.

Ltac no_error := apply key_errors_nil; eexists; split; [eassumption|]; try reflexivity.

(** The two accounts of validation agree: a body is refused exactly when
    some key raises an error. *)
Lemma accepted_iff_no_error (raw : gmap string json) :
  is_Some (typed coerce_str coerce_float coerce_datetime coerce_bool raw ≫= validate)
  <-> error_inputs coerce_str coerce_float coerce_datetime coerce_bool raw = [].
Proof.
  split.
  - intros [payload H].
    destruct (typed coerce_str coerce_float coerce_datetime coerce_bool raw) as [b|] eqn:E;
      [|discriminate H].
    cbn in H. apply typed_all_reads in E.
    destruct E as (R1 & R2 & R3 & R4 & R5 & R6 & R7 & R8 & R9 & R10 & R11 & R12 & R13 & R14).
    apply validate_accepts in H as ((uid & Hu) & (x & Hx & Hok) & Hc & Hs).
    unfold error_inputs.
    repeat (apply app_nil; split); no_error.
    + destruct (body_transaction_id b); reflexivity.
    + now rewrite Hu.
    + now rewrite Hx.
    + destruct (body_currency b); [reflexivity | congruence | reflexivity].
    + destruct (body_merchant b); reflexivity.
    + destruct (body_merchant_category b); reflexivity.
    + destruct (body_country b); reflexivity.
    + destruct (body_channel b); reflexivity.
    + destruct (body_timestamp b); reflexivity.
    + destruct (body_device_id b); reflexivity.
    + destruct (body_ip_address b); reflexivity.
    + destruct (body_risk_score b); [reflexivity | reflexivity | exact Hs].
    + destruct (body_risk_level b); reflexivity.
    + destruct (body_is_fraud b); reflexivity.
  - unfold error_inputs. intros H.
    apply app_eq_nil in H as [E1 H]. apply app_eq_nil in H as [E2 H].
    apply app_eq_nil in H as [E3 H]. apply app_eq_nil in H as [E4 H].
    apply app_eq_nil in H as [E5 H]. apply app_eq_nil in H as [E6 H].
    apply app_eq_nil in H as [E7 H]. apply app_eq_nil in H as [E8 H].
    apply app_eq_nil in H as [E9 H]. apply app_eq_nil in H as [E10 H].
    apply app_eq_nil in H as [E11 H]. apply app_eq_nil in H as [E12 H].
    apply app_eq_nil in H as [E13 E14].
    apply key_errors_nil in E1 as (f1 & R1 & _).
    apply key_errors_nil in E2 as (f2 & R2 & C2).
    apply key_errors_nil in E3 as (f3 & R3 & C3).
    apply key_errors_nil in E4 as (f4 & R4 & C4).
    apply key_errors_nil in E5 as (f5 & R5 & _).
    apply key_errors_nil in E6 as (f6 & R6 & _).
    apply key_errors_nil in E7 as (f7 & R7 & _).
    apply key_errors_nil in E8 as (f8 & R8 & _).
    apply key_errors_nil in E9 as (f9 & R9 & _).
    apply key_errors_nil in E10 as (f10 & R10 & _).
    apply key_errors_nil in E11 as (f11 & R11 & _).
    apply key_errors_nil in E12 as (f12 & R12 & C12).
    apply key_errors_nil in E13 as (f13 & R13 & _).
    apply key_errors_nil in E14 as (f14 & R14 & _).
    unfold typed.
    rewrite R1, R2, R3, R4, R5, R6, R7, R8, R9, R10, R11, R12, R13, R14.
    cbn. unfold validate. cbn.
    destruct f2 as [| |uid]; try discriminate C2.
    destruct f3 as [| |x]; try discriminate C3.
    assert (Hr : risk_score_ok (optional None f12) = true)
      by (destruct f12; cbn; auto).
    destruct f4 as [| |cur]; try discriminate C4; cbn; rewrite C3, Hr; cbn; eauto.
Qed.

End EndpointFacts.



